(** * Environment: typed access to process environment variables

  A shallow embedding of [getOrDefault] and of the docker probes of the
  [Environment] class, together with the part of the JavaScript runtime
  the class relies on.

  Two revisions of the class are present in the repository:
  - the revision with the [array<T>] shapes (the one the test-suite and
    the specification describe), embedded in [Module Environment];
  - the earlier revision at [src/environment/index.ts], embedded in
    [Module Rev1], where the optional type is only consulted for a
    nullish default.

  Conventions of the embedding:
  - a JavaScript string is a [string] (a sequence of bytes);
  - [process.env] is a finite map from the names of the variables that
    are set to their strings; reading a name that is not set goes on to
    the members that [process.env] inherits from [Object.prototype]
    ([toString], [constructor], ...), and is [undefined] only when there
    is none;
  - a class is named by the list of its ancestors, the empty list being
    [Environment] itself; a subclass does not redefine a static method;
  - an object holds own data properties with string names; the built-in
    objects (arrays, patterns, functions) carry no property of their
    own besides the built-in ones;
  - an optional argument is an [option]; [None] is an omitted argument;
  - a computation that may throw returns a [Result];
  - the number type, [parseFloat], [JSON] and the pattern compiler belong
    to the host runtime and are parameters ([Numbers], [Host]). *)

From Stdlib Require Import ZArith Ascii String List Lia.
From Stdlib Require Import DecimalString DecimalPos.
From stdpp Require Import base option list gmap strings.

Local Open Scope string_scope.

(** ** Strings, as the runtime operates on them *)

Module Str.

(** [s.split(sep)] for a one-character separator: the empty string has
    one (empty) segment. *)
Fixpoint split (sep : ascii) (s : string) : list string :=
  match s with
  | EmptyString => [EmptyString]
  | String c s' =>
      if Ascii.eqb c sep then EmptyString :: split sep s'
      else match split sep s' with
           | seg :: rest => String c seg :: rest
           | [] => [String c EmptyString]
           end
  end.

(** Number of occurrences of a character. *)
Fixpoint count (c : ascii) (s : string) : nat :=
  match s with
  | EmptyString => 0
  | String d s' => (if Ascii.eqb d c then 1 else 0) + count c s'
  end.

(** [s.startsWith(p)] *)
Definition startsWith (s p : string) : bool := String.prefix p s.

Fixpoint drop (n : nat) (s : string) : string :=
  match n, s with
  | O, _ => s
  | S n', String _ s' => drop n' s'
  | S _, EmptyString => EmptyString
  end.

(** [s.replace(pat, rep)] with a string pattern: the first occurrence
    only. *)
Fixpoint replace (pat rep s : string) : string :=
  if String.prefix pat s then rep +:+ drop (String.length pat) s
  else match s with
       | EmptyString => EmptyString
       | String c s' => String c (replace pat rep s')
       end.

(** [s.includes(p)] *)
Fixpoint includes (s p : string) : bool :=
  String.prefix p s ||
  match s with
  | EmptyString => false
  | String _ s' => includes s' p
  end.

(** White space of the ASCII range: TAB, LF, VT, FF, CR, SP. *)
Definition is_ws (c : ascii) : bool :=
  let n := nat_of_ascii c in
  ((9 <=? n) && (n <=? 13))%nat || (n =? 32)%nat.

Fixpoint trimStart (s : string) : string :=
  match s with
  | String c s' => if is_ws c then trimStart s' else s
  | EmptyString => EmptyString
  end.

Fixpoint trimEnd (s : string) : string :=
  match s with
  | EmptyString => EmptyString
  | String c s' =>
      match trimEnd s' with
      | EmptyString => if is_ws c then EmptyString else String c EmptyString
      | r => String c r
      end
  end.

Definition trim (s : string) : string := trimEnd (trimStart s).

Definition lower (c : ascii) : ascii :=
  let n := nat_of_ascii c in
  if ((65 <=? n) && (n <=? 90))%nat then ascii_of_nat (n + 32) else c.

Fixpoint toLowerCase (s : string) : string :=
  match s with
  | EmptyString => EmptyString
  | String c s' => String (lower c) (toLowerCase s')
  end.

Fixpoint join (sep : string) (l : list string) : string :=
  match l with
  | [] => EmptyString
  | [s] => s
  | s :: rest => s +:+ sep +:+ join sep rest
  end.

(** A non-empty string is truthy. *)
Definition truthy (s : string) : bool :=
  match s with EmptyString => false | _ => true end.

End Str.

(** ** Exceptions *)

Inductive Exn : Type :=
| TypeError
| SyntaxError
| RangeError
| Thrown (what : string).

Inductive Result (A : Type) : Type :=
| Ok (a : A)
| Raise (e : Exn).
Arguments Ok {A} a.
Arguments Raise {A} e.

#[export] Instance Result_ret : MRet Result := @Ok.
#[export] Instance Result_bind : MBind Result := fun A B f m =>
  match m with Ok a => f a | Raise e => Raise e end.
#[export] Instance Result_fmap : FMap Result := fun A B f m =>
  match m with Ok a => Ok (f a) | Raise e => Raise e end.

Definition raises {A} (m : Result A) : Prop := exists e, m = Raise e.
Definition returns {A} (m : Result A) : Prop := exists a, m = Ok a.

(** ** Numbers of the host runtime *)

(** The number type is the host's (IEEE binary64 in every engine); the
    class uses it through [parseFloat] and [Number.prototype.toString],
    and [BigInt] may be handed a number ([number_toBigInt] is [None]
    where it throws its [RangeError]).  [parseFloat_empty] is the one
    fact about [parseFloat] that the development relies on: no prefix of
    the empty string is a decimal literal. *)
Class Numbers : Type := {
  number : Type;
  NaN : number;
  parseFloat : string -> number;
  number_toString : number -> string;
  number_toBigInt : number -> option Z;
  parseFloat_empty : parseFloat EmptyString = NaN;
}.

(** ** Values *)

Section Values.
Context `{Numbers}.

(** [VObj] is an ordinary object (its prototype is [Object.prototype]),
    [VBare] an object without prototype ([Object.create(null)]); both
    list their own properties.  [VProto] is [Object.prototype] itself.
    A function is its source text and what a call without arguments
    does. *)
#[local] Unset Elimination Schemes.
Inductive JSVal : Type :=
| VUndefined
| VNull
| VBool (b : bool)
| VNum (n : number)
| VBigInt (z : Z)
| VStr (s : string)
| VArr (elems : list JSVal)
| VObj (fields : list (string * JSVal))
| VBare (fields : list (string * JSVal))
| VProto
| VRegExp (source flags : string)
| VFun (src : string) (call : unit -> Result JSVal).
#[local] Set Elimination Schemes.

(** [typeof v] *)
Definition typeOf (v : JSVal) : string :=
  match v with
  | VUndefined => "undefined"
  | VNull => "object"
  | VBool _ => "boolean"
  | VNum _ => "number"
  | VBigInt _ => "bigint"
  | VStr _ => "string"
  | VArr _ | VObj _ | VBare _ | VProto | VRegExp _ _ => "object"
  | VFun _ _ => "function"
  end.

(** [v === null || v === undefined] *)
Definition nullish (v : JSVal) : bool :=
  match v with VUndefined | VNull => true | _ => false end.

(** [Array.isArray(v)] *)
Definition isArray (v : JSVal) : bool :=
  match v with VArr _ => true | _ => false end.

(** [v instanceof RegExp] *)
Definition isRegExp (v : JSVal) : bool :=
  match v with VRegExp _ _ => true | _ => false end.

(** A value that is no object. *)
Definition primitive (v : JSVal) : bool :=
  match v with
  | VUndefined | VNull | VBool _ | VNum _ | VBigInt _ | VStr _ => true
  | _ => false
  end.

Definition Z_toString (z : Z) : string :=
  NilZero.string_of_int (Z.to_int z).

(** The string of a primitive value. *)
Definition prim_text (v : JSVal) : string :=
  match v with
  | VUndefined => "undefined"
  | VNull => "null"
  | VBool b => if b then "true" else "false"
  | VNum n => number_toString n
  | VBigInt z => Z_toString z
  | VStr s => s
  | _ => EmptyString
  end.

Fixpoint assoc (k : string) (fields : list (string * JSVal)) : option JSVal :=
  match fields with
  | [] => None
  | (k', v) :: rest => if String.eqb k k' then Some v else assoc k rest
  end.

(** One step of OrdinaryToPrimitive: the method [name] of an object with
    the own properties [fields] is called when it is callable, and its
    result counts when it is a primitive.  [inherited] is what the
    inherited method gives when the object has no property [name] of its
    own ([None] when there is no such method, or when it returns an
    object). *)
Definition own_method (fields : list (string * JSVal)) (name : string)
    (inherited : option JSVal) : Result (option JSVal) :=
  match assoc name fields with
  | Some (VFun _ call) =>
      r ← call tt; Ok (if primitive r then Some r else None)
  | Some _ => Ok None
  | None => Ok inherited
  end.

(** OrdinaryToPrimitive: [toString] then [valueOf] for the hint string,
    the other way round for the hint number; a [TypeError] when neither
    gives a primitive.  [objectToString] is the text of the inherited
    [toString], [None] for an object without prototype; the inherited
    [valueOf] returns the object itself. *)
Definition OrdinaryToPrimitive (hint_string : bool)
    (fields : list (string * JSVal)) (objectToString : option string)
  : Result JSVal :=
  let by_toString := own_method fields "toString" (VStr <$> objectToString) in
  let by_valueOf := own_method fields "valueOf" None in
  first ← (if hint_string then by_toString else by_valueOf);
  match first with
  | Some p => Ok p
  | None =>
      second ← (if hint_string then by_valueOf else by_toString);
      match second with
      | Some p => Ok p
      | None => Raise TypeError
      end
  end.

(** The abstract operation ToString.  An array joins the strings of its
    elements, [null] and [undefined] counting as empty. *)
Fixpoint ToString (v : JSVal) : Result string :=
  match v with
  | VArr elems =>
      Str.join "," <$>
        (fix texts (l : list JSVal) : Result (list string) :=
           match l with
           | [] => Ok []
           | e :: l' =>
               t ← (if nullish e then Ok EmptyString else ToString e);
               ts ← texts l';
               Ok (t :: ts)
           end) elems
  | VObj fields =>
      prim_text <$> OrdinaryToPrimitive true fields (Some "[object Object]")
  | VBare fields => prim_text <$> OrdinaryToPrimitive true fields None
  | VProto => Ok "[object Object]"
  | VRegExp source flags => Ok ("/" +:+ source +:+ "/" +:+ flags)
  | VFun src _ => Ok src
  | _ => Ok (prim_text v)
  end.

(** ToPrimitive with the hint number, as [BigInt] applies it. *)
Definition ToPrimitive_number (v : JSVal) : Result JSVal :=
  match v with
  | VArr _ | VProto | VRegExp _ _ | VFun _ _ => VStr <$> ToString v
  | VObj fields => OrdinaryToPrimitive false fields (Some "[object Object]")
  | VBare fields => OrdinaryToPrimitive false fields None
  | _ => Ok v
  end.

(** [v?.toString()]: [undefined] on [null] and [undefined]; the own
    [toString] of an object when it has one (a [TypeError] when that is
    not a function); the built-in method otherwise, which an object
    without prototype does not have. *)
Definition toString_call (v : JSVal) : Result JSVal :=
  match v with
  | VUndefined | VNull => Ok VUndefined
  | VObj fields =>
      match assoc "toString" fields with
      | Some (VFun _ call) => call tt
      | Some _ => Raise TypeError
      | None => Ok (VStr "[object Object]")
      end
  | VBare fields =>
      match assoc "toString" fields with
      | Some (VFun _ call) => call tt
      | _ => Raise TypeError
      end
  | _ => VStr <$> ToString v
  end.

(** [v.name] for the two properties the class reads, [source] and
    [flags]: a [TypeError] on [null] and [undefined], the pattern's own
    property on a pattern, the own property of an object, [undefined]
    elsewhere. *)
Definition getProp (v : JSVal) (name : string) : Result JSVal :=
  match v with
  | VUndefined | VNull => Raise TypeError
  | VRegExp source flags =>
      Ok (if String.eqb name "source" then VStr source
          else if String.eqb name "flags" then VStr flags
          else VUndefined)
  | VObj fields | VBare fields => Ok (default VUndefined (assoc name fields))
  | _ => Ok VUndefined
  end.

(** [v?.call(null)] *)
Definition call_opt (v : JSVal) : Result JSVal :=
  match v with
  | VUndefined | VNull => Ok VUndefined
  | VFun _ call => call tt
  | VObj fields | VBare fields =>
      match assoc "call" fields with
      | Some (VFun _ call) => call tt
      | _ => Raise TypeError
      end
  | _ => Raise TypeError
  end.

(** *** What [process.env[key]] can be *)

(** A member that [process.env] inherits from [Object.prototype]: a
    built-in function, or (for [__proto__]) the prototype itself. *)
Inductive Member : Type :=
| MemberFunction (src : string) (call : unit -> Result JSVal)
| MemberPrototype.

(** The value read from [process.env]: [undefined], the string of a
    variable that is set, or an inherited member. *)
Inductive EnvValue : Type :=
| Unset
| Raw (raw : string)
| Inherited (m : Member).

Definition member_value (m : Member) : JSVal :=
  match m with
  | MemberFunction src call => VFun src call
  | MemberPrototype => VProto
  end.

(** The string of a member: the source text of the function,
    [[object Object]] for the prototype. *)
Definition member_text (m : Member) : string :=
  match m with
  | MemberFunction src _ => src
  | MemberPrototype => "[object Object]"
  end.

Definition env_value (value : EnvValue) : JSVal :=
  match value with
  | Unset => VUndefined
  | Raw raw => VStr raw
  | Inherited m => member_value m
  end.

(** Truthiness of [value]: a non-empty string, or a member. *)
Definition env_truthy (value : EnvValue) : bool :=
  match value with
  | Unset => false
  | Raw raw => Str.truthy raw
  | Inherited _ => true
  end.

(** [value ?? alt], [alt] being evaluated only when [value] is
    [undefined]. *)
Definition coalesce (value : EnvValue) (alt : Result JSVal) : Result JSVal :=
  match value with
  | Unset => alt
  | _ => Ok (env_value value)
  end.

(** [value?.split(',')]: [undefined] stays [undefined] ([None]); a
    member has no [split], and calling it is a [TypeError]. *)
Definition env_split (value : EnvValue) : Result (option (list string)) :=
  match value with
  | Unset => Ok None
  | Raw raw => Ok (Some (Str.split "," raw))
  | Inherited _ => Raise TypeError
  end.

(** The text read from [value], or [alt] when it is [undefined]. *)
Definition env_text (value : EnvValue) (alt : string) : string :=
  match value with
  | Unset => alt
  | Raw raw => raw
  | Inherited m => member_text m
  end.

End Values.

(** ** Arbitrary-precision integers: [BigInt(string)] *)

Module BigIntLit.

Definition digit (base : N) (c : ascii) : option N :=
  let n := N_of_ascii c in
  let d :=
    if ((48 <=? n) && (n <=? 57))%N then Some (n - 48)%N
    else if ((97 <=? n) && (n <=? 122))%N then Some (n - 87)%N
    else if ((65 <=? n) && (n <=? 90))%N then Some (n - 55)%N
    else None in
  match d with
  | Some v => if (v <? base)%N then Some v else None
  | None => None
  end.

Fixpoint digits_from (base acc : N) (s : string) : option N :=
  match s with
  | EmptyString => Some acc
  | String c s' =>
      match digit base c with
      | Some d => digits_from base (acc * base + d)%N s'
      | None => None
      end
  end.

(** One digit at least. *)
Definition digits (base : N) (s : string) : option Z :=
  match s with
  | EmptyString => None
  | _ => Z.of_N <$> digits_from base 0%N s
  end.

(** StringToBigInt: white space is trimmed, the empty string is zero, a
    decimal literal may carry a sign, a literal with a radix prefix may
    not. *)
Definition StringToBigInt (s : string) : option Z :=
  match Str.trim s with
  | EmptyString => Some 0%Z
  | String "+" rest => digits 10 rest
  | String "-" rest => Z.opp <$> digits 10 rest
  | String "0" (String ("x" | "X") rest) => digits 16 rest
  | String "0" (String ("o" | "O") rest) => digits 8 rest
  | String "0" (String ("b" | "B") rest) => digits 2 rest
  | t => digits 10 t
  end.

End BigIntLit.

(** ** The rest of what the class runs on: [JSON], the pattern compiler,
    the inherited members of [process.env], and the boolean converter on
    such a member *)

(** [JSON_parse s] is [None] when [JSON.parse(s)] throws its [SyntaxError];
    [JSON_stringify v] is [Ok None] when [JSON.stringify(v)] is
    [undefined]; [regexp_compiles p f] tells whether the pattern text [p]
    compiles under the flags [f] (valid flags included); [regexp_source p]
    is the [source] of the pattern compiled from [p]; [env_inherited key]
    is the member that [process.env[key]] finds on [Object.prototype]
    when no variable [key] is set; [toBoolean_member m fallback] is what
    [typeConverters.toBoolean] makes of such a member (the module is not
    part of the sources, and its specification speaks of strings only). *)
Class Host `{Numbers} : Type := {
  JSON_parse : string -> option JSVal;
  JSON_stringify : JSVal -> Result (option string);
  regexp_compiles : string -> string -> bool;
  regexp_source : string -> string;
  env_inherited : string -> option Member;
  toBoolean_member : Member -> JSVal -> Result JSVal;
}.

Section Runtime.
Context `{Host}.

(** [process.env[key]] *)
Definition env_get (env : gmap string string) (key : string) : EnvValue :=
  match env !! key with
  | Some raw => Raw raw
  | None =>
      match env_inherited key with
      | Some m => Inherited m
      | None => Unset
      end
  end.

(** [BigInt(x)] for [x] a string or [undefined]. *)
Definition BigInt (x : option string) : Result JSVal :=
  match x with
  | None => Raise TypeError
  | Some s =>
      match BigIntLit.StringToBigInt s with
      | Some z => Ok (VBigInt z)
      | None => Raise SyntaxError
      end
  end.

(** [BigInt(v)] for any value: the primitive of [v] under the hint
    number; a number is converted when it is integral, a string is
    read, a boolean is 0 or 1. *)
Definition BigInt_of (v : JSVal) : Result JSVal :=
  p ← ToPrimitive_number v;
  match p with
  | VNum n =>
      match number_toBigInt n with
      | Some z => Ok (VBigInt z)
      | None => Raise RangeError
      end
  | VBool b => Ok (VBigInt (if b then 1 else 0))
  | VBigInt z => Ok (VBigInt z)
  | VStr s => BigInt (Some s)
  | _ => Raise TypeError
  end.

(** [parseFloat(x)] for [x] a string or [undefined]: the argument goes
    through ToString first. *)
Definition parseFloat_opt (x : option string) : JSVal :=
  VNum (parseFloat (default "undefined" x)).

(** [parseFloat(v)] for any value. *)
Definition parseFloat_of (v : JSVal) : Result JSVal :=
  s ← ToString v; Ok (VNum (parseFloat s)).

(** [JSON.parse(x)] for [x] a string or [undefined]: the text
    [undefined] is no JSON text. *)
Definition JSON_parse_opt (x : option string) : Result JSVal :=
  match x with
  | None => Raise SyntaxError
  | Some s =>
      match JSON_parse s with
      | Some v => Ok v
      | None => Raise SyntaxError
      end
  end.

(** [JSON.parse(v)] for any value. *)
Definition JSON_parse_of (v : JSVal) : Result JSVal :=
  match v with
  | VUndefined => JSON_parse_opt None
  | _ => s ← ToString v; JSON_parse_opt (Some s)
  end.

(** [JSON.stringify(v)] as a value: a string or [undefined]. *)
Definition JSON_stringify_value (v : JSVal) : Result JSVal :=
  text ← JSON_stringify v;
  Ok (match text with Some s => VStr s | None => VUndefined end).

(** The [flags] getter lists the flags in this order. *)
Definition flag_order : list ascii :=
  ["d"; "g"; "i"; "m"; "s"; "u"; "v"; "y"]%char.

Definition canonical_flags (f : string) : string :=
  string_of_list_ascii
    (List.filter (fun c => (0 <? Str.count c f)%nat) flag_order).

(** [new RegExp(pattern, flags)]: a pattern given as pattern contributes
    its source (and its flags when none are given); [undefined] stands for
    the empty text; anything else goes through ToString. *)
Definition RegExp_new (pattern flags : JSVal) : Result JSVal :=
  let '(P, F) :=
    match pattern with
    | VRegExp source fl =>
        (VStr source, match flags with VUndefined => VStr fl | _ => flags end)
    | _ => (pattern, flags)
    end in
  P ← match P with VUndefined => Ok EmptyString | _ => ToString P end;
  F ← match F with VUndefined => Ok EmptyString | _ => ToString F end;
  if regexp_compiles P F
  then Ok (VRegExp (regexp_source P) (canonical_flags F))
  else Raise SyntaxError.

End Runtime.

(** ** TypeConverters *)

Module TypeConverters.
Section TypeConverters.
Context `{Host}.

(** Modelled from the spec: [type_converters] is imported by the class
    and is not part of the sources.  [toBoolean(raw, fallback)] returns
    [fallback] when [raw] is absent; otherwise [true] iff the lowercased
    trimmed string equals ["true"] or ["1"]; it never throws. *)
Definition toBoolean (raw : option string) (fallback : JSVal) : JSVal :=
  match raw with
  | None => fallback
  | Some s =>
      let t := Str.toLowerCase (Str.trim s) in
      VBool (String.eqb t "true" || String.eqb t "1")
  end.

(** Modelled from the spec: [toBoolean] on what [process.env[key]]
    gives.  [undefined] is the absent raw and a string is compared as
    above; the specification tells of no other raw, and what becomes of
    an inherited member is left to the host. *)
Definition toBoolean_value (value : EnvValue) (fallback : JSVal)
  : Result JSVal :=
  match value with
  | Unset => Ok (toBoolean None fallback)
  | Raw raw => Ok (toBoolean (Some raw) fallback)
  | Inherited m => toBoolean_member m fallback
  end.

(** Modelled from the spec: [toArray(rawElements, elementConverter)]
    produces a sequence of the same length as [rawElements], applying
    [elementConverter] to each; an exception of the converter propagates. *)
Definition toArray {A} (rawElements : list string)
    (elementConverter : string -> Result A) : Result (list A) :=
  mapM elementConverter rawElements.

End TypeConverters.
End TypeConverters.

(** ** The class, in the revision with [array<T>] shapes

    The line numbers are those of [unnamed/part_000]. *)

Module Environment.
Section Environment.
Context `{Host}.

(** Lines 66-71: [optionalType ?? typeof defaultValue], then
    [optionalType] alone when the default is [null] or [undefined].
    [None] is [undefined]. *)
Definition resolveType (defaultValue : JSVal) (optionalType : option string)
  : option string :=
  let type := Some (default (typeOf defaultValue) optionalType) in
  if nullish defaultValue then optionalType else type.

(** Lines 75-81: an [array<T>] type is split into [array] and [T]. *)
Definition unpackArray (type : string) : string * option string :=
  if Str.startsWith type "array<"
  then ("array",
        Some (Str.replace ">" EmptyString
                (Str.replace "array<" EmptyString type)))
  else (type, None).

(** Lines 98-111: the conversion of the raw elements, by element type. *)
Definition convertElements (arrayType : option string) (arr : list string)
  : Result JSVal :=
  let t := default EmptyString arrayType in
  if String.eqb t "boolean" then
    VArr <$> TypeConverters.toArray arr
               (fun v => Ok (TypeConverters.toBoolean (Some v) VUndefined))
  else if String.eqb t "number" then
    VArr <$> TypeConverters.toArray arr (fun v => Ok (parseFloat_opt (Some v)))
  else if String.eqb t "bigint" then
    VArr <$> TypeConverters.toArray arr (fun v => BigInt (Some v))
  else if String.eqb t "object" then
    VArr <$> TypeConverters.toArray arr (fun v => JSON_parse_opt (Some v))
  else if String.eqb t "regexp" then
    VArr <$> TypeConverters.toArray arr
               (fun v => RegExp_new (VStr v) VUndefined)
  else Ok (VArr (VStr <$> arr)).

(** Lines 114-125: the [default] branch of the switch. *)
Definition fallthrough (type : string) (value : EnvValue)
    (defaultValue : JSVal) : Result JSVal :=
  if isArray defaultValue then
    arr ← env_split value;
    Ok (match arr with
        | Some arr => VArr (VStr <$> arr)
        | None => defaultValue
        end)
  else if isRegExp defaultValue then
    source ← coalesce value (getProp defaultValue "source");
    flags ← getProp defaultValue "flags";
    RegExp_new source flags
  else if String.eqb type "object" then
    text ← coalesce value (JSON_stringify_value defaultValue);
    JSON_parse_of text
  else
    Ok (if env_truthy value then env_value value else defaultValue).

(** Lines 75-126: the switch on the resolved type. *)
Definition dispatch (type : string) (value : EnvValue)
    (defaultValue : JSVal) : Result JSVal :=
  let '(type, arrayType) := unpackArray type in
  if String.eqb type "boolean" then
    TypeConverters.toBoolean_value value defaultValue
  else if String.eqb type "number" then
    arg ← coalesce value (toString_call defaultValue);
    parseFloat_of arg
  else if String.eqb type "bigint" then
    arg ← coalesce value (toString_call defaultValue);
    BigInt_of arg
  else if String.eqb type "function" then
    if env_truthy value then Ok (env_value value)
    else call_opt defaultValue
  else if String.eqb type "array" then
    arr ← env_split value;
    match arr with
    | None => Ok defaultValue
    | Some arr => convertElements arrayType arr
    end
  else if String.eqb type "regexp" then
    source ← coalesce value (getProp defaultValue "source");
    flags ← getProp defaultValue "flags";
    RegExp_new source flags
  else fallthrough type value defaultValue.

(** [getOrDefault(key, defaultValue, optionalType)], [env] being the
    variables that are set.  With a nullish default and no optional
    type, [type] is [undefined] and [type.startsWith] throws. *)
Definition getOrDefault (env : gmap string string) (key : string)
    (defaultValue : JSVal) (optionalType : option string) : Result JSVal :=
  let type := resolveType defaultValue optionalType in
  let value := env_get env key in
  match type with
  | None => Raise TypeError
  | Some type => dispatch type value defaultValue
  end.

(** The shape a call resolves to: the case of the switch that is taken,
    and inside its [default] case the test that succeeds. *)
Inductive Shape : Type :=
| Boolean
| Number
| BigInteger
| Callback
| ArrayOf (arrayType : option string)
| Pattern
| Sequence
| StructuredObject
| Passthrough.

Definition shapeOf (type : string) (defaultValue : JSVal) : Shape :=
  let '(type, arrayType) := unpackArray type in
  if String.eqb type "boolean" then Boolean
  else if String.eqb type "number" then Number
  else if String.eqb type "bigint" then BigInteger
  else if String.eqb type "function" then Callback
  else if String.eqb type "array" then ArrayOf arrayType
  else if String.eqb type "regexp" then Pattern
  else if isArray defaultValue then Sequence
  else if isRegExp defaultValue then Pattern
  else if String.eqb type "object" then StructuredObject
  else Passthrough.

(** The element types of the declared shapes [array<T>]: the members of
    [EnvironmentVariableType] (line 36), from which
    [EnvironmentVariableArrayType] is built (line 37). *)
Definition element_types : list string :=
  ["boolean"; "number"; "bigint"; "object"; "regexp"; "string"].

(** The scalar converter of an element type, in the words of the
    specification: [boolean] is [toBoolean] with no per-element default,
    [number] the float parse, [bigint] the integer parse, [object] the
    parse as structured text, [regexp] the compilation as a pattern,
    anything else the identity on strings. *)
Definition scalar_converter (elem : string) (raw : string) : Result JSVal :=
  if String.eqb elem "boolean" then
    Ok (TypeConverters.toBoolean (Some raw) VUndefined)
  else if String.eqb elem "number" then Ok (VNum (parseFloat raw))
  else if String.eqb elem "bigint" then BigInt (Some raw)
  else if String.eqb elem "object" then JSON_parse_opt (Some raw)
  else if String.eqb elem "regexp" then RegExp_new (VStr raw) VUndefined
  else Ok (VStr raw).

End Environment.
End Environment.
(** ** The class, in the earlier revision ([src/environment/index.ts]) *)

Module Rev1.
Section Rev1.
Context `{Host}.

(** Lines 61-66: [typeof defaultValue], replaced by [optionalType] when
    the default is [null] or [undefined]. *)
Definition resolveType (defaultValue : JSVal) (optionalType : option string)
  : option string :=
  let type := Some (typeOf defaultValue) in
  if nullish defaultValue then optionalType else type.

(** Lines 85-96: the [default] branch of the switch. *)
Definition fallthrough (value : EnvValue) (defaultValue : JSVal)
  : Result JSVal :=
  if isArray defaultValue then
    arr ← env_split value;
    Ok (match arr with
        | Some arr => VArr (VStr <$> arr)
        | None => defaultValue
        end)
  else if isRegExp defaultValue then
    source ← coalesce value (getProp defaultValue "source");
    flags ← getProp defaultValue "flags";
    RegExp_new source flags
  else if String.eqb (typeOf defaultValue) "object" then
    text ← coalesce value (JSON_stringify_value defaultValue);
    JSON_parse_of text
  else
    Ok (if env_truthy value then env_value value else defaultValue).

Definition getOrDefault (env : gmap string string) (key : string)
    (defaultValue : JSVal) (optionalType : option string) : Result JSVal :=
  let type := resolveType defaultValue optionalType in
  let value := env_get env key in
  match type with
  | None => fallthrough value defaultValue
  | Some type =>
      if String.eqb type "boolean" then
        TypeConverters.toBoolean_value value defaultValue
      else if String.eqb type "number" then
        arg ← coalesce value (toString_call defaultValue);
        parseFloat_of arg
      else if String.eqb type "bigint" then
        arg ← coalesce value (toString_call defaultValue);
        BigInt_of arg
      else if String.eqb type "function" then
        if env_truthy value then Ok (env_value value)
        else call_opt defaultValue
      else if String.eqb type "array" then
        arr ← env_split value;
        Ok (match arr with
            | Some arr => VArr (VStr <$> arr)
            | None => defaultValue
            end)
      else if String.eqb type "object" then
        arg ← coalesce value (toString_call defaultValue);
        JSON_parse_of arg
      else if String.eqb type "regexp" then
        source ← coalesce value (getProp defaultValue "source");
        flags ← getProp defaultValue "flags";
        RegExp_new source flags
      else fallthrough value defaultValue
  end.

End Rev1.
End Rev1.

(** ** The override store *)

Module OverrideStore.
Section OverrideStore.
Context `{Host}.

(** Modelled from the spec: the override store and the override check of
    [resolve] are exercised by the test-suite ([overrideVariable],
    [isVariableOverridden], [getOverridenVariable],
    [removeOverriddenVariable]) and are in neither revision of the class.
    The store maps a variable name to an already-typed value;
    [set(key, value)] inserts or replaces the entry. *)
Definition overrideVariable (key : string) (value : JSVal)
    (store : gmap string JSVal) : gmap string JSVal :=
  <[key := value]> store.

(** Modelled from the spec: [has(key)]. *)
Definition isVariableOverridden (key : string) (store : gmap string JSVal)
  : bool :=
  bool_decide (is_Some (store !! key)).

(** Modelled from the spec: [get(key)], the value or [undefined]. *)
Definition getOverriddenVariable (key : string) (store : gmap string JSVal)
  : JSVal :=
  default VUndefined (store !! key).

(** Modelled from the spec: [remove(key)] deletes the entry and does
    nothing when there is none. *)
Definition removeOverriddenVariable (key : string)
    (store : gmap string JSVal) : gmap string JSVal :=
  delete key store.

(** Modelled from the spec: [resolve] first asks the store; a live entry
    is returned verbatim, otherwise the raw variable is read and coerced. *)
Definition resolve (store : gmap string JSVal) (env : gmap string string)
    (key : string) (defaultValue : JSVal) (optionalType : option string)
  : Result JSVal :=
  if isVariableOverridden key store
  then Ok (getOverriddenVariable key store)
  else Environment.getOrDefault env key defaultValue optionalType.

End OverrideStore.
End OverrideStore.

(** ** The docker probes *)

Module Docker.

(** A call into [fs]. *)
Inductive Probe : Type :=
| ExistsSync (path : string)
| ReadFileSync (path : string).

(** A class of the hierarchy under [Environment], named by its chain of
    ancestors: [[]] is [Environment], [name :: parent] is the class
    [name] that extends [parent]. *)
Definition Class : Type := list string.

(** What the static methods see of the process: the platform, the file
    system ([readFileSync] throws where it is [None]), the classes that
    hold a boolean in a static field [_isDocker] of their own (on the
    others the field is missing, or [undefined] as [Environment]
    declares it), and the calls into [fs] made so far.
    [process.platform] is a constant of the process: nothing below
    changes it. *)
Record World : Type := {
  platform : string;
  existsSync : string -> bool;
  readFileSync : string -> option string;
  _isDocker : gmap Class bool;
  probes : list Probe;
}.

(** [this._isDocker]: the field of the class itself, or else the one it
    inherits from the nearest ancestor; [None] is [undefined]. *)
Fixpoint get_isDocker (cells : gmap Class bool) (this : Class) : option bool :=
  match cells !! this with
  | Some b => Some b
  | None =>
      match this with
      | [] => None
      | _ :: parent => get_isDocker cells parent
      end
  end.

Definition probe (p : Probe) (w : World) : World :=
  {| platform := platform w; existsSync := existsSync w;
     readFileSync := readFileSync w; _isDocker := _isDocker w;
     probes := probes w ++ [p] |}.

(** [this._isDocker = b]: an assignment writes the field of [this]
    itself. *)
Definition set_isDocker (this : Class) (b : bool) (w : World) : World :=
  {| platform := platform w; existsSync := existsSync w;
     readFileSync := readFileSync w;
     _isDocker := <[this := b]> (_isDocker w);
     probes := probes w |}.

(** The file system changes under the process. *)
Definition set_fs (ex : string -> bool) (rd : string -> option string)
    (w : World) : World :=
  {| platform := platform w; existsSync := ex; readFileSync := rd;
     _isDocker := _isDocker w; probes := probes w |}.

Definition hasDockerEnv (w : World) : bool * World :=
  if negb (String.eqb (platform w) "linux") then (false, w)
  else (existsSync w "/.dockerenv", probe (ExistsSync "/.dockerenv") w).

Definition hasDockerCGroup (w : World) : bool * World :=
  if negb (String.eqb (platform w) "linux") then (false, w)
  else
    let w' := probe (ReadFileSync "/proc/self/cgroup") w in
    match readFileSync w "/proc/self/cgroup" with
    | Some text => (Str.includes text "docker", w')
    | None => (false, w')
    end.

(** [isDocker()] called on the class [this]. *)
Definition isDocker (this : Class) (w : World) : bool * World :=
  if negb (String.eqb (platform w) "linux") then (false, w)
  else
    match get_isDocker (_isDocker w) this with
    | Some b => (b, w)
    | None =>
        let '(e, w1) := hasDockerEnv w in
        let '(b, w2) := if e then (true, w1) else hasDockerCGroup w1 in
        (b, set_isDocker this b w2)
    end.

(** What can happen in a process between two observations: a call of one
    of the three static methods on some class, or a change of the file
    system. *)
Inductive step : World -> World -> Prop :=
| step_isDocker this w : step w (isDocker this w).2
| step_hasDockerEnv w : step w (hasDockerEnv w).2
| step_hasDockerCGroup w : step w (hasDockerCGroup w).2
| step_fs w ex rd : step w (set_fs ex rd w).

End Docker.

(** ** An executable host

    [RefHost] instantiates the host runtime so that the class can be run
    on concrete inputs.  A finite number is kept as the decimal it was
    read from, [(-1)^neg * m * 10^e] with [m] free of trailing zeros, and
    not rounded to binary64; a pattern is checked for its structure
    (groups, classes, quantifiers, flags) only. *)

Module RefHost.

Inductive num : Type :=
| NaN_
| Inf (neg : bool)
| Fin (neg : bool) (m : N) (e : Z).

Fixpoint strip_zeros (fuel : nat) (m : N) (e : Z) : N * Z :=
  match fuel with
  | O => (m, e)
  | S fuel' =>
      if (m =? 0)%N then (0%N, 0%Z)
      else if (m mod 10 =? 0)%N then strip_zeros fuel' (m / 10)%N (e + 1)%Z
      else (m, e)
  end.

Definition mk (neg : bool) (m : N) (e : Z) : num :=
  let '(m', e') := strip_zeros (S (N.to_nat (N.log2 m))) m e in
  Fin neg m' e'.

Definition is_digit (c : ascii) : bool :=
  let n := N_of_ascii c in ((48 <=? n) && (n <=? 57))%N.

(** The longest prefix of decimal digits, and what follows it. *)
Fixpoint span_digits (s : string) : string * string :=
  match s with
  | String c s' =>
      if is_digit c then let '(d, r) := span_digits s' in (String c d, r)
      else (EmptyString, s)
  | EmptyString => (EmptyString, EmptyString)
  end.

Definition nat_of_digits (d : string) : N :=
  default 0%N (BigIntLit.digits_from 10 0 d).

(** The exponent part [e[+-]digits], when it is complete. *)
Definition exponent (s : string) : Z :=
  match s with
  | String ("e" | "E") r =>
      let '(neg, r') :=
        match r with
        | String "-" r' => (true, r')
        | String "+" r' => (false, r')
        | _ => (false, r)
        end in
      let '(d, _) := span_digits r' in
      let v := Z.of_N (nat_of_digits d) in
      if neg then (- v)%Z else v
  | _ => 0%Z
  end.

(** [parseFloat]: leading white space is skipped and the longest prefix
    that is a decimal literal is read; [NaN] when there is none. *)
Definition parse_float (s : string) : num :=
  let t := Str.trimStart s in
  let '(neg, t) :=
    match t with
    | String "-" r => (true, r)
    | String "+" r => (false, r)
    | _ => (false, t)
    end in
  if String.prefix "Infinity" t then Inf neg
  else
    let '(int, r) := span_digits t in
    let '(frac, r) :=
      match r with
      | String "." r' => span_digits r'
      | _ => (EmptyString, r)
      end in
    match int +:+ frac with
    | EmptyString => NaN_
    | ds => mk neg (nat_of_digits ds)
               (exponent r - Z.of_nat (String.length frac))
    end.

Definition N_toString (n : N) : string :=
  NilZero.string_of_uint (N.to_uint n).

Fixpoint zeros (n : nat) : string :=
  match n with O => EmptyString | S n' => String "0" (zeros n') end.

Definition take (n : nat) (s : string) : string := String.substring 0 n s.

(** [Number.prototype.toString()] on the digits [m] and the exponent
    [e]: plain notation for a decimal point between positions -6 and 21,
    exponent notation outside. *)
Definition to_string (x : num) : string :=
  match x with
  | NaN_ => "NaN"
  | Inf neg => if neg then "-Infinity" else "Infinity"
  | Fin neg m e =>
      if (m =? 0)%N then "0"
      else
        let ds := N_toString m in
        let k := Z.of_nat (String.length ds) in
        let n := (k + e)%Z in
        let body :=
          if ((k <=? n) && (n <=? 21))%Z then ds +:+ zeros (Z.to_nat (n - k))
          else if ((0 <? n) && (n <=? 21))%Z then
            take (Z.to_nat n) ds +:+ "." +:+ Str.drop (Z.to_nat n) ds
          else if ((-6 <? n) && (n <=? 0))%Z then
            "0." +:+ zeros (Z.to_nat (- n)) +:+ ds
          else
            let x := (n - 1)%Z in
            let sign := if (x <? 0)%Z then "-" else "+" in
            let mant :=
              match ds with
              | String d EmptyString => String d EmptyString
              | String d rest => String d ("." +:+ rest)
              | EmptyString => EmptyString
              end in
            mant +:+ "e" +:+ sign +:+ N_toString (Z.abs_N x) in
        if neg then "-" +:+ body else body
  end.

(** The integer a number is, when it is one. *)
Definition to_bigint (x : num) : option Z :=
  match x with
  | Fin neg m e =>
      if (m =? 0)%N then Some 0%Z
      else if (0 <=? e)%Z then
        let z := (Z.of_N m * 10 ^ e)%Z in
        Some (if neg then (- z)%Z else z)
      else None
  | _ => None
  end.

#[export] Instance numbers : Numbers := {|
  number := num;
  NaN := NaN_;
  parseFloat := parse_float;
  number_toString := to_string;
  number_toBigInt := to_bigint;
  parseFloat_empty := eq_refl;
|}.

(** *** JSON text *)

Definition json_ws (c : ascii) : bool :=
  let n := N_of_ascii c in
  ((n =? 32) || (n =? 9) || (n =? 10) || (n =? 13))%N.

Fixpoint skip_ws (s : string) : string :=
  match s with
  | String c s' => if json_ws c then skip_ws s' else s
  | EmptyString => EmptyString
  end.

(** The double quote. *)
Definition dquote : ascii := ascii_of_N 34.

(** A code unit, as the bytes of its UTF-8 encoding. *)
Definition utf8 (n : N) : string :=
  if (n <? 128)%N then String (ascii_of_N n) EmptyString
  else if (n <? 2048)%N then
    String (ascii_of_N (192 + n / 64))
      (String (ascii_of_N (128 + n mod 64)) EmptyString)
  else
    String (ascii_of_N (224 + n / 4096))
      (String (ascii_of_N (128 + (n / 64) mod 64))
         (String (ascii_of_N (128 + n mod 64)) EmptyString)).

Definition hex4 (a b c d : ascii) : option N :=
  BigIntLit.digits_from 16 0
    (String a (String b (String c (String d EmptyString)))).

(** The character an escape letter stands for. *)
Definition unescape (e : ascii) : option ascii :=
  if Ascii.eqb e dquote then Some dquote
  else match e with
       | "\" => Some "\"
       | "/" => Some "/"
       | "b" => Some (ascii_of_N 8)
       | "f" => Some (ascii_of_N 12)
       | "n" => Some (ascii_of_N 10)
       | "r" => Some (ascii_of_N 13)
       | "t" => Some (ascii_of_N 9)
       | _ => None
       end%char.

(** The characters of a string literal after its opening quote, and what
    follows the closing quote. *)
Fixpoint string_body (s : string) : option (string * string) :=
  match s with
  | EmptyString => None
  | String "\" (String "u" (String a (String b (String c (String d rest))))) =>
      match hex4 a b c d, string_body rest with
      | Some n, Some (t, r) => Some (utf8 n +:+ t, r)
      | _, _ => None
      end
  | String "\" (String e rest) =>
      match unescape e, string_body rest with
      | Some c, Some (t, r) => Some (String c t, r)
      | _, _ => None
      end
  | String c rest =>
      if Ascii.eqb c dquote then Some (EmptyString, rest)
      else if (N_of_ascii c <? 32)%N || Ascii.eqb c "\" then None
      else match string_body rest with
           | Some (t, r) => Some (String c t, r)
           | None => None
           end
  end.

(** The lexeme of a number, and what follows it. *)
Definition number_lexeme (s : string) : option (string * string) :=
  let '(sign, r0) :=
    match s with
    | String "-" r => ("-", r)
    | _ => (EmptyString, s)
    end in
  let '(int, r1) := span_digits r0 in
  let int_ok :=
    match int with
    | EmptyString => false
    | String "0" (String _ _) => false
    | _ => true
    end in
  let '(frac, frac_ok, r2) :=
    match r1 with
    | String "." r =>
        let '(d, r') := span_digits r in
        ("." +:+ d, Str.truthy d, r')
    | _ => (EmptyString, true, r1)
    end in
  let '(exp, exp_ok, r3) :=
    match r2 with
    | String ("e" | "E") r =>
        let '(sg, r') :=
          match r with
          | String "-" t => ("-", t)
          | String "+" t => ("+", t)
          | _ => (EmptyString, r)
          end in
        let '(d, rest) := span_digits r' in
        ("e" +:+ sg +:+ d, Str.truthy d, rest)
    | _ => (EmptyString, true, r2)
    end in
  if int_ok && frac_ok && exp_ok then Some (sign +:+ int +:+ frac +:+ exp, r3)
  else None.

(** A later member of the same name replaces the value of the earlier. *)
Fixpoint put (k : string) (v : JSVal) (fields : list (string * JSVal))
  : list (string * JSVal) :=
  match fields with
  | [] => [(k, v)]
  | (k', v') :: rest =>
      if String.eqb k k' then (k, v) :: rest else (k', v') :: put k v rest
  end.

Fixpoint value (fuel : nat) (s : string) : option (JSVal * string) :=
  match fuel with
  | O => None
  | S fuel =>
      match skip_ws s with
      | String "{" r =>
          match skip_ws r with
          | String "}" r' => Some (VObj [], r')
          | _ => members fuel r []
          end
      | String "[" r =>
          match skip_ws r with
          | String "]" r' => Some (VArr [], r')
          | _ => elements fuel r []
          end
      | String c r as t =>
          if Ascii.eqb c dquote then
            match string_body r with
            | Some (str, r') => Some (VStr str, r')
            | None => None
            end
          else if String.prefix "true" t then Some (VBool true, Str.drop 4 t)
          else if String.prefix "false" t then Some (VBool false, Str.drop 5 t)
          else if String.prefix "null" t then Some (VNull, Str.drop 4 t)
          else match number_lexeme t with
               | Some (lex, r') => Some (VNum (parse_float lex), r')
               | None => None
               end
      | EmptyString => None
      end
  end
with elements (fuel : nat) (s : string) (acc : list JSVal)
  : option (JSVal * string) :=
  match fuel with
  | O => None
  | S fuel =>
      match value fuel s with
      | Some (v, r) =>
          match skip_ws r with
          | String "," r' => elements fuel r' (acc ++ [v])
          | String "]" r' => Some (VArr (acc ++ [v]), r')
          | _ => None
          end
      | None => None
      end
  end
with members (fuel : nat) (s : string) (acc : list (string * JSVal))
  : option (JSVal * string) :=
  match fuel with
  | O => None
  | S fuel =>
      match skip_ws s with
      | String c r =>
          if Ascii.eqb c dquote then
            match string_body r with
            | Some (k, r1) =>
                match skip_ws r1 with
                | String ":" r2 =>
                    match value fuel r2 with
                    | Some (v, r3) =>
                        match skip_ws r3 with
                        | String "," r4 => members fuel r4 (put k v acc)
                        | String "}" r4 => Some (VObj (put k v acc), r4)
                        | _ => None
                        end
                    | None => None
                    end
                | _ => None
                end
            | None => None
            end
          else None
      | EmptyString => None
      end
  end.

(** [JSON.parse]: one value, white space around it, nothing else. *)
Definition json_parse (s : string) : option JSVal :=
  match value (2 * String.length s + 2) s with
  | Some (v, r) =>
      match skip_ws r with
      | EmptyString => Some v
      | _ => None
      end
  | None => None
  end.

Definition hex_digit (n : N) : ascii :=
  if (n <? 10)%N then ascii_of_N (48 + n) else ascii_of_N (87 + n).

Definition escape_char (c : ascii) : string :=
  let n := N_of_ascii c in
  if (n =? 34)%N then String "\" (String dquote EmptyString)
  else if (n =? 92)%N then "\\"
  else if (n =? 8)%N then "\b"
  else if (n =? 12)%N then "\f"
  else if (n =? 10)%N then "\n"
  else if (n =? 13)%N then "\r"
  else if (n =? 9)%N then "\t"
  else if (n <? 32)%N then
    "\u00" +:+ String (hex_digit (n / 16))
                (String (hex_digit (n mod 16)) EmptyString)
  else String c EmptyString.

Fixpoint escape (s : string) : string :=
  match s with
  | EmptyString => EmptyString
  | String c s' => escape_char c +:+ escape s'
  end.

Definition quote (s : string) : string :=
  String dquote (escape s +:+ String dquote EmptyString).

(** [JSON.stringify]: [undefined] and functions have no text, are [null]
    inside an array and are left out of an object; a BigInt cannot be
    serialised; a pattern and [Object.prototype] have no enumerable
    property.  The objects serialised here have no [toJSON] member. *)
Fixpoint json_stringify (v : JSVal) : Result (option string) :=
  match v with
  | VUndefined | VFun _ _ => Ok None
  | VNull => Ok (Some "null")
  | VBool b => Ok (Some (if b then "true" else "false"))
  | VNum n =>
      Ok (Some match n with Fin _ _ _ => to_string n | _ => "null" end)
  | VBigInt _ => Raise TypeError
  | VStr s => Ok (Some (quote s))
  | VArr elems =>
      parts ← (fix go (l : list JSVal) : Result (list string) :=
                 match l with
                 | [] => Ok []
                 | e :: l' =>
                     t ← json_stringify e;
                     ts ← go l';
                     Ok (default "null" t :: ts)
                 end) elems;
      Ok (Some ("[" +:+ Str.join "," parts +:+ "]"))
  | VObj fields | VBare fields =>
      parts ← (fix go (l : list (string * JSVal)) : Result (list string) :=
                 match l with
                 | [] => Ok []
                 | (k, e) :: l' =>
                     t ← json_stringify e;
                     ts ← go l';
                     Ok (match t with
                         | Some t => (quote k +:+ ":" +:+ t) :: ts
                         | None => ts
                         end)
                 end) fields;
      Ok (Some ("{" +:+ Str.join "," parts +:+ "}"))
  | VProto | VRegExp _ _ => Ok (Some "{}")
  end.

(** *** Patterns *)

Definition flags_ok (f : string) : bool :=
  forallb (fun c => existsb (Ascii.eqb c) flag_order
                    && (Str.count c f =? 1)%nat)
    (list_ascii_of_string f)
  && negb ((0 <? Str.count "u" f)%nat && (0 <? Str.count "v" f)%nat).

(** The structure of a pattern text: [depth] open groups, inside a class
    or not, and whether a quantifier may follow. *)
Fixpoint pattern_ok (s : string) (depth : nat) (in_class quantifiable : bool)
  : bool :=
  match s with
  | EmptyString => (depth =? 0)%nat && negb in_class
  | String "\" (String _ rest) => pattern_ok rest depth in_class true
  | String "\" EmptyString => false
  | String c rest =>
      if in_class then
        pattern_ok rest depth (negb (Ascii.eqb c "]")) true
      else
        match c with
        | "[" => pattern_ok rest depth true true
        | "(" =>
            match rest with
            | String "?" rest' => pattern_ok rest' (S depth) false false
            | _ => pattern_ok rest (S depth) false false
            end
        | ")" =>
            match depth with
            | O => false
            | S d => pattern_ok rest d false true
            end
        | "*" | "+" | "?" =>
            quantifiable &&
            match rest with
            | String "?" rest' => pattern_ok rest' depth false false
            | _ => pattern_ok rest depth false false
            end
        | "|" | "^" | "$" => pattern_ok rest depth false false
        | _ => pattern_ok rest depth false true
        end%char
  end.

Definition compiles (p f : string) : bool :=
  flags_ok f && pattern_ok p 0 false false.

(** The [source] of a compiled pattern: the empty pattern reads [(?:)],
    a bare slash is escaped. *)
Fixpoint escape_slashes (s : string) : string :=
  match s with
  | EmptyString => EmptyString
  | String "\" (String c rest) => String "\" (String c (escape_slashes rest))
  | String "/" rest => String "\" (String "/" (escape_slashes rest))
  | String c rest => String c (escape_slashes rest)
  end.

Definition source_of (p : string) : string :=
  match p with
  | EmptyString => "(?:)"
  | _ => escape_slashes p
  end.

(** *** The members of [Object.prototype] *)

(** A built-in function prints as native code.  Called with [null] as
    [this] and without arguments, [constructor] makes an empty object,
    [toString] names the [null] it was given and [isPrototypeOf] says
    no; the other methods reject [null]. *)
Definition native (name : string) : Member :=
  MemberFunction ("function " +:+ name +:+ "() { [native code] }")
    (fun _ =>
       if String.eqb name "constructor" then Ok (VObj [])
       else if String.eqb name "toString" then Ok (VStr "[object Null]")
       else if String.eqb name "isPrototypeOf" then Ok (VBool false)
       else Raise TypeError).

Definition prototype_methods : list string :=
  ["constructor"; "__defineGetter__"; "__defineSetter__"; "hasOwnProperty";
   "__lookupGetter__"; "__lookupSetter__"; "isPrototypeOf";
   "propertyIsEnumerable"; "toString"; "valueOf"; "toLocaleString"].

Definition inherited (key : string) : option Member :=
  if String.eqb key "__proto__" then Some MemberPrototype
  else if existsb (String.eqb key) prototype_methods then Some (native key)
  else None.

(** The boolean converter takes a member as one more raw that is no
    truthy token. *)

#[export] Instance host : Host := {|
  JSON_parse := json_parse;
  JSON_stringify := json_stringify;
  regexp_compiles := compiles;
  regexp_source := source_of;
  env_inherited := inherited;
  toBoolean_member := fun _ _ => Ok (VBool false);
|}.

(** The number written [s]. *)
Definition lit (s : string) : JSVal := VNum (parse_float s).

End RefHost.

(** ** Concrete inputs *)

(** The environment in which only [FOO_BAR] is set, to [raw]. *)
Definition foo_bar (raw : string) : gmap string string :=
  {[ "FOO_BAR" := raw ]}.

(** A fresh linux process inside a container without [/.dockerenv]: the
    cgroup file names docker. *)
Definition container : Docker.World := {|
  Docker.platform := "linux";
  Docker.existsSync := fun _ => false;
  Docker.readFileSync := fun path =>
    if String.eqb path "/proc/self/cgroup"
    then Some "12:devices:/docker/0a1b2c" else None;
  Docker._isDocker := ∅;
  Docker.probes := [];
|}.

(** The same machine seen from a process on another platform. *)
Definition windows : Docker.World := {|
  Docker.platform := "win32";
  Docker.existsSync := fun _ => true;
  Docker.readFileSync := fun _ => Some "docker";
  Docker._isDocker := ∅;
  Docker.probes := [];
|}.

(** * Properties *)

(** ** Lists of raw elements *)

Lemma split_length (sep : ascii) (s : string) :
  length (Str.split sep s) = S (Str.count sep s).
Proof.
  induction s as [|c s IH]; simpl; [reflexivity|].
  destruct (Ascii.eqb c sep); simpl.
  - now rewrite IH.
  - destruct (Str.split sep s); simpl in *; lia.
Qed.

Lemma mapM_Ok_total {A B} (g : A -> B) (l : list A) :
  mapM (M := Result) (fun a => Ok (g a)) l = Ok (g <$> l).
Proof.
  induction l as [|a l IH]; simpl; [reflexivity|].
  unfold mbind, mret, Result_bind, Result_ret in *.
  now rewrite IH.
Qed.

Lemma mapM_Result_ext {A B} (f g : A -> Result B) (l : list A) :
  (forall a, f a = g a) -> mapM f l = mapM g l.
Proof.
  intros E. induction l as [|a l IH]; simpl; [reflexivity|].
  now rewrite E, IH.
Qed.

Lemma mapM_Ok_inv {A B} (f : A -> Result B) (l : list A) (l' : list B) :
  mapM f l = Ok l' -> Forall2 (fun a b => f a = Ok b) l l'.
Proof.
  revert l'. induction l as [|a l IH]; simpl; intros l' E.
  - inversion E; constructor.
  - unfold mbind, mret, Result_bind, Result_ret in *.
    destruct (f a) as [b|e] eqn:Ea; [|discriminate].
    destruct (mapM f l) as [bs|e]; [|discriminate].
    inversion E; subst. constructor; auto.
Qed.

Lemma mapM_Ok_intro {A B} (f : A -> Result B) (l : list A) :
  Forall (fun a => returns (f a)) l -> returns (mapM f l).
Proof.
  induction 1 as [|a l [b Eb] _ [bs Ebs]]; simpl.
  - now exists [].
  - exists (b :: bs). unfold mbind, mret, Result_bind, Result_ret in *.
    now rewrite Eb, Ebs.
Qed.

Lemma mapM_Raise_inv {A B} (f : A -> Result B) (l : list A) (e : Exn) :
  mapM f l = Raise e -> exists a, a ∈ l /\ f a = Raise e.
Proof.
  induction l as [|a l IH]; simpl; [discriminate|].
  unfold mbind, mret, Result_bind, Result_ret in *.
  destruct (f a) as [b|e'] eqn:Ea.
  - destruct (mapM f l) as [bs|e'']; [discriminate|].
    intros E; inversion E; subst.
    destruct IH as (a' & Hin & Ha'); [reflexivity|].
    exists a'. split; [now right | assumption].
  - intros E; inversion E; subst. exists a. split; [now left | assumption].
Qed.

Lemma fmap_Ok_inv {A B} (g : A -> B) (m : Result A) (b : B) :
  g <$> m = Ok b -> exists a, m = Ok a /\ b = g a.
Proof. destruct m; simpl; intros E; inversion E; eauto. Qed.

Lemma fmap_Raise_inv {A B} (g : A -> B) (m : Result A) (e : Exn) :
  g <$> m = Raise e -> m = Raise e.
Proof. destruct m; simpl; intros E; inversion E; auto. Qed.

(** ** Shape resolution and dispatch *)

Section Resolution.
Context `{Host}.

Lemma resolveType_declared (d : JSVal) (s : string) :
  Environment.resolveType d (Some s) = Some s.
Proof. unfold Environment.resolveType. now destruct (nullish d). Qed.

Lemma resolveType_inferred (d : JSVal) :
  nullish d = false -> Environment.resolveType d None = Some (typeOf d).
Proof. unfold Environment.resolveType. now intros ->. Qed.

Lemma resolveType_nullish (d : JSVal) :
  nullish d = true -> Environment.resolveType d None = None.
Proof. unfold Environment.resolveType. now intros ->. Qed.

Lemma unpackArray_element (elem : string) :
  In elem Environment.element_types ->
  Environment.unpackArray ("array<" +:+ elem +:+ ">") = ("array", Some elem).
Proof.
  simpl. intros [<-|[<-|[<-|[<-|[<-|[<-|[]]]]]]]; reflexivity.
Qed.

(** The three outcomes of [process.env[key]]. *)
Lemma env_get_raw (env : gmap string string) (key raw : string) :
  env !! key = Some raw -> env_get env key = Raw raw.
Proof. unfold env_get. now intros ->. Qed.

Lemma env_get_unset (env : gmap string string) (key : string) :
  env !! key = None -> env_inherited key = None -> env_get env key = Unset.
Proof. unfold env_get. now intros -> ->. Qed.

Lemma env_get_inherited (env : gmap string string) (key : string)
    (m : Member) :
  env !! key = None -> env_inherited key = Some m ->
  env_get env key = Inherited m.
Proof. unfold env_get. now intros -> ->. Qed.

Lemma env_get_insert (env : gmap string string) (key raw : string) :
  env_get (<[key := raw]> env) key = Raw raw.
Proof. apply env_get_raw, lookup_insert_eq. Qed.

Lemma env_get_delete (env : gmap string string) (key : string) :
  env_get (delete key env) key
  = match env_inherited key with
    | Some m => Inherited m
    | None => Unset
    end.
Proof. unfold env_get. now rewrite lookup_delete_eq. Qed.

(** The string of an inherited member is its text. *)
Lemma ToString_member (m : Member) :
  ToString (member_value m) = Ok (member_text m).
Proof. now destruct m. Qed.

Lemma ToPrimitive_number_member (m : Member) :
  ToPrimitive_number (member_value m) = Ok (VStr (member_text m)).
Proof. now destruct m. Qed.

(** What each shape computes: the switch of [dispatch], read by the shape
    it resolves to. *)
Lemma dispatch_shape (type : string) (value : EnvValue) (d : JSVal) :
  Environment.dispatch type value d =
  match Environment.shapeOf type d with
  | Environment.Boolean => TypeConverters.toBoolean_value value d
  | Environment.Number =>
      arg ← coalesce value (toString_call d); parseFloat_of arg
  | Environment.BigInteger =>
      arg ← coalesce value (toString_call d); BigInt_of arg
  | Environment.Callback =>
      if env_truthy value then Ok (env_value value) else call_opt d
  | Environment.ArrayOf arrayType =>
      arr ← env_split value;
      match arr with
      | None => Ok d
      | Some arr => Environment.convertElements arrayType arr
      end
  | Environment.Sequence =>
      arr ← env_split value;
      Ok (match arr with
          | Some arr => VArr (VStr <$> arr)
          | None => d
          end)
  | Environment.Pattern =>
      source ← coalesce value (getProp d "source");
      flags ← getProp d "flags";
      RegExp_new source flags
  | Environment.StructuredObject =>
      text ← coalesce value (JSON_stringify_value d);
      JSON_parse_of text
  | Environment.Passthrough =>
      Ok (if env_truthy value then env_value value else d)
  end.
Proof.
  unfold Environment.dispatch, Environment.shapeOf, Environment.fallthrough.
  destruct (Environment.unpackArray type) as [t a].
  repeat match goal with
         | |- context [if ?b then _ else _] => destruct b; try reflexivity
         end.
Qed.

End Resolution.

(** ** Overrides *)

Section Overrides.
Context `{Host}.

Lemma resolve_live_entry (store : gmap string JSVal) (env : gmap string string)
    (key : string) (v d : JSVal) (ot : option string) :
  store !! key = Some v -> OverrideStore.resolve store env key d ot = Ok v.
Proof.
  intros E. unfold OverrideStore.resolve, OverrideStore.isVariableOverridden,
    OverrideStore.getOverriddenVariable.
  rewrite E. rewrite bool_decide_eq_true_2 by eauto. reflexivity.
Qed.

Lemma resolve_no_entry (store : gmap string JSVal) (env : gmap string string)
    (key : string) (d : JSVal) (ot : option string) :
  store !! key = None ->
  OverrideStore.resolve store env key d ot
  = Environment.getOrDefault env key d ot.
Proof.
  intros E. unfold OverrideStore.resolve, OverrideStore.isVariableOverridden.
  rewrite E. rewrite bool_decide_eq_false_2; [reflexivity|].
  intros [? ?]; discriminate.
Qed.

(** C1. For every key with a live override entry, [resolve] returns the
    stored value verbatim, whatever the process environment, the default
    and the declared shape are: two calls on the same store agree even
    when everything else differs, and the entry written by
    [overrideVariable] is the one returned. *)
Theorem resolve_override_verbatim (store : gmap string JSVal)
    (env env' : gmap string string) (key : string) (v d d' : JSVal)
    (ot ot' : option string) :
  store !! key = Some v ->
  OverrideStore.resolve store env key d ot = Ok v
  /\ OverrideStore.resolve store env' key d' ot'
     = OverrideStore.resolve store env key d ot
  /\ OverrideStore.resolve (OverrideStore.overrideVariable key v store)
       env key d ot = Ok v.
Proof.
  intros E. rewrite !(resolve_live_entry store _ key v) by exact E.
  repeat split.
  apply resolve_live_entry. unfold OverrideStore.overrideVariable.
  apply lookup_insert_eq.
Qed.

(** Removing the entry restores the resolution from the raw variable. *)
Lemma resolve_after_remove (store : gmap string JSVal)
    (env : gmap string string) (key : string) (v d : JSVal)
    (ot : option string) :
  OverrideStore.resolve
    (OverrideStore.removeOverriddenVariable key
       (OverrideStore.overrideVariable key v store)) env key d ot
  = Environment.getOrDefault env key d ot.
Proof.
  apply resolve_no_entry. unfold OverrideStore.removeOverriddenVariable.
  apply lookup_delete_eq.
Qed.

End Overrides.

(** ** A nullish default without a declared shape *)

Section Nullish.
Context `{Host}.

(** C2, on the code.  With a default that is [null] or [undefined] and no
    optional type, [type] is [undefined] when [type.startsWith] is
    reached: every such call throws a [TypeError], whether the variable
    is set or not. *)
Theorem getOrDefault_nullish_untyped_throws (env : gmap string string)
    (key : string) :
  Environment.getOrDefault env key VNull None = Raise TypeError
  /\ Environment.getOrDefault env key VUndefined None = Raise TypeError.
Proof. split; reflexivity. Qed.

End Nullish.

(** ** The declared shape *)

Section Declared.
Context `{Host}.

(** C3. When the optional type is supplied it is the type the switch
    runs on, whatever the runtime type of the default: the default does
    not enter the resolution, and [getOrDefault(key, 0, 'bigint')] with
    the variable set to ["1"] is the BigInt 1, for every number given as
    default. *)
Theorem declared_shape_verbatim (env : gmap string string) (key : string)
    (d : JSVal) (s : string) (n : number) :
  Environment.resolveType d (Some s) = Some s
  /\ Environment.getOrDefault env key d (Some s)
     = Environment.dispatch s (env_get env key) d
  /\ Environment.getOrDefault (<[key := "1"]> env) key (VNum n) (Some "bigint")
     = Ok (VBigInt 1).
Proof.
  split; [apply resolveType_declared|].
  unfold Environment.getOrDefault. rewrite !resolveType_declared.
  split; [reflexivity|].
  rewrite env_get_insert. reflexivity.
Qed.

End Declared.

(** ** Which calls can throw *)

Section Raising.
Context `{Host}.

Lemma convertElements_raises (arrayType : option string) (arr : list string)
    (e : Exn) :
  Environment.convertElements arrayType arr = Raise e ->
  exists elem, arrayType = Some elem
               /\ In elem ["bigint"; "object"; "regexp"].
Proof.
  unfold Environment.convertElements, TypeConverters.toArray.
  destruct arrayType as [t|]; simpl.
  - destruct (String.eqb_spec t "boolean") as [->|_].
    { rewrite mapM_Ok_total. discriminate. }
    destruct (String.eqb_spec t "number") as [->|_].
    { rewrite mapM_Ok_total. discriminate. }
    destruct (String.eqb_spec t "bigint") as [->|_].
    { intros _. exists "bigint". simpl. auto. }
    destruct (String.eqb_spec t "object") as [->|_].
    { intros _. exists "object". simpl. auto. }
    destruct (String.eqb_spec t "regexp") as [->|_].
    { intros _. exists "regexp". simpl. auto. }
    discriminate.
  - discriminate.
Qed.

(** A string, or the text of a member, is parsed as a float without
    exception. *)
Lemma parseFloat_of_env (value : EnvValue) (alt : Result JSVal) :
  value <> Unset ->
  (arg ← coalesce value alt; parseFloat_of arg)
  = Ok (VNum (parseFloat (env_text value EmptyString))).
Proof.
  destruct value as [|raw|m]; [contradiction| reflexivity |].
  intros _. simpl. unfold parseFloat_of. now rewrite ToString_member.
Qed.

(** The shapes on which the switch can throw, for a [value] that is no
    inherited member. *)
Lemma dispatch_raises (type : string) (value : EnvValue) (d : JSVal)
    (e : Exn) :
  (forall m, value <> Inherited m) ->
  Environment.dispatch type value d = Raise e ->
  match Environment.shapeOf type d with
  | Environment.BigInteger
  | Environment.Pattern
  | Environment.StructuredObject => True
  | Environment.ArrayOf arrayType =>
      exists elem, arrayType = Some elem
                   /\ In elem ["bigint"; "object"; "regexp"]
  | Environment.Callback => call_opt d = Raise e
  | Environment.Number =>
      value = Unset
      /\ (arg ← toString_call d; parseFloat_of arg) = Raise e
  | Environment.Boolean
  | Environment.Sequence
  | Environment.Passthrough => False
  end.
Proof.
  intros Hm. rewrite dispatch_shape.
  destruct (Environment.shapeOf type d); try discriminate; try easy.
  - destruct value as [|raw|m]; [discriminate..|]. now destruct (Hm m).
  - destruct value as [|raw|m]; [easy| |]; rewrite parseFloat_of_env;
      discriminate.
  - destruct (env_truthy value); [discriminate | easy].
  - destruct value as [|raw|m]; simpl; [discriminate| |].
    + apply convertElements_raises.
    + now destruct (Hm m).
  - destruct value as [|raw|m]; simpl; [discriminate..|].
    now destruct (Hm m).
Qed.


(** The string conversion of a primitive default, of a pattern and of a
    function does not throw. *)
Lemma toString_call_returns (d : JSVal) :
  primitive d = true \/ isRegExp d = true \/ typeOf d = "function" ->
  returns (arg ← toString_call d; parseFloat_of arg).
Proof.
  destruct d; simpl; intros [E|[E|E]]; try discriminate;
    eexists; reflexivity.
Qed.

(** The same, read the other way: the shapes that always return. *)
Lemma getOrDefault_returns (env : gmap string string) (key : string)
    (d : JSVal) (ot : option string) (type : string) :
  (forall m, env_get env key <> Inherited m) ->
  Environment.resolveType d ot = Some type ->
  match Environment.shapeOf type d with
  | Environment.Boolean
  | Environment.Sequence | Environment.Passthrough => True
  | Environment.Number =>
      primitive d = true \/ isRegExp d = true \/ typeOf d = "function"
  | Environment.ArrayOf (Some elem) =>
      ~ In elem ["bigint"; "object"; "regexp"]
  | Environment.ArrayOf None => True
  | _ => False
  end ->
  returns (Environment.getOrDefault env key d ot).
Proof.
  intros Hm Ht Hs. unfold Environment.getOrDefault. rewrite Ht.
  destruct (Environment.dispatch type (env_get env key) d) as [v|e] eqn:E;
    [now exists v|].
  pose proof (dispatch_raises type (env_get env key) d e Hm E) as R.
  destruct (Environment.shapeOf type d); try easy.
  - destruct R as [_ R]. destruct (toString_call_returns d Hs) as [v Ev].
    rewrite Ev in R. discriminate.
  - destruct R as (elem & -> & Hin). easy.
Qed.

(** The string shape returns whatever [process.env[key]] is. *)
Lemma getOrDefault_string_returns (env : gmap string string)
    (key : string) (d : JSVal) (ot : option string) (type : string) :
  Environment.resolveType d ot = Some type ->
  Environment.shapeOf type d = Environment.Passthrough ->
  returns (Environment.getOrDefault env key d ot).
Proof.
  intros Ht Hs. unfold Environment.getOrDefault.
  rewrite Ht, dispatch_shape, Hs. eexists; reflexivity.
Qed.

End Raising.

(** ** Arrays *)

Section Arrays.
Context `{Host}.

Lemma convertElements_scalar (elem : string) (arr : list string) :
  Environment.convertElements (Some elem) arr
  = VArr <$> mapM (Environment.scalar_converter elem) arr.
Proof.
  unfold Environment.convertElements, Environment.scalar_converter,
    TypeConverters.toArray. simpl.
  destruct (String.eqb elem "boolean"); [reflexivity|].
  destruct (String.eqb elem "number"); [reflexivity|].
  destruct (String.eqb elem "bigint"); [reflexivity|].
  destruct (String.eqb elem "object"); [reflexivity|].
  destruct (String.eqb elem "regexp"); [reflexivity|].
  now rewrite mapM_Ok_total.
Qed.

Lemma getOrDefault_array_present (env : gmap string string) (key : string)
    (d : JSVal) (elem raw : string) :
  In elem Environment.element_types ->
  env !! key = Some raw ->
  Environment.getOrDefault env key d (Some ("array<" +:+ elem +:+ ">"))
  = VArr <$> mapM (Environment.scalar_converter elem) (Str.split "," raw).
Proof.
  intros Hin Hraw. unfold Environment.getOrDefault.
  rewrite resolveType_declared, (env_get_raw env key raw Hraw).
  unfold Environment.dispatch. rewrite (unpackArray_element elem Hin).
  cbn [String.eqb Ascii.eqb Bool.eqb]. simpl.
  apply convertElements_scalar.
Qed.

(** C5. With the variable set and a declared shape [array<T>], the call
    is the comma-split of the raw string mapped through the scalar
    converter of [T], an exception of a converter propagating.  There is
    one segment more than there are commas; whenever the call returns,
    it returns an array with one element per segment, the i-th being the
    conversion of the i-th segment; it returns as soon as every segment
    converts, which is always the case for [boolean], [number] and
    [string]. *)
Theorem array_shape_elementwise (env : gmap string string) (key : string)
    (d : JSVal) (elem raw : string) :
  In elem Environment.element_types ->
  env !! key = Some raw ->
  let segments := Str.split "," raw in
  let result :=
    Environment.getOrDefault env key d (Some ("array<" +:+ elem +:+ ">")) in
  length segments = S (Str.count "," raw)
  /\ result = VArr <$> mapM (Environment.scalar_converter elem) segments
  /\ (forall v, result = Ok v ->
        exists l, v = VArr l
                  /\ length l = length segments
                  /\ forall i seg, segments !! i = Some seg ->
                       exists x, l !! i = Some x
                                 /\ Environment.scalar_converter elem seg = Ok x)
  /\ (Forall (fun seg => returns (Environment.scalar_converter elem seg))
        segments -> returns result)
  /\ (In elem ["boolean"; "number"; "string"] -> returns result).
Proof.
  intros Hin Hraw segments result.
  assert (E : result
              = VArr <$> mapM (Environment.scalar_converter elem) segments)
    by (apply getOrDefault_array_present; assumption).
  assert (T : Forall (fun seg => returns (Environment.scalar_converter elem seg))
                segments -> returns result).
  { intros F. destruct (mapM_Ok_intro _ _ F) as [l El].
    exists (VArr l). rewrite E, El. reflexivity. }
  split; [apply split_length|]. split; [exact E|]. split; [|split].
  - intros v Ev. rewrite E in Ev.
    destruct (fmap_Ok_inv _ _ _ Ev) as (l & El & ->).
    exists l. split; [reflexivity|].
    pose proof (mapM_Ok_inv _ _ _ El) as F2.
    split; [symmetry; eapply Forall2_length; exact F2|].
    intros i seg Hi.
    destruct (Forall2_lookup_l _ _ _ _ _ F2 Hi) as (x & Hx & Ex). eauto.
  - exact T.
  - intros Hel. apply T. apply Forall_forall. intros seg _.
    unfold Environment.scalar_converter.
    simpl in Hel. destruct Hel as [<-|[<-|[<-|[]]]]; simpl; eexists; reflexivity.
Qed.

(** With [process.env[key]] undefined, a call that resolves to an array
    shape returns the default itself: for each declared [array<T>], for
    the bare [array] type, and for a sequence default that reaches the
    [default] case of the switch. *)
Lemma array_unset_returns_default (env : gmap string string)
    (key : string) (d : JSVal) :
  env_get env key = Unset ->
  (forall elem, In elem Environment.element_types ->
     Environment.getOrDefault env key d (Some ("array<" +:+ elem +:+ ">"))
     = Ok d)
  /\ (forall ot type,
        Environment.resolveType d ot = Some type ->
        (exists a, Environment.shapeOf type d = Environment.ArrayOf a)
        \/ Environment.shapeOf type d = Environment.Sequence ->
        Environment.getOrDefault env key d ot = Ok d)
  /\ (forall l, d = VArr l -> Environment.getOrDefault env key d None = Ok d).
Proof.
  intros Hraw. split; [|split].
  - intros elem Hin. unfold Environment.getOrDefault.
    rewrite resolveType_declared, Hraw. unfold Environment.dispatch.
    rewrite (unpackArray_element elem Hin). reflexivity.
  - intros ot type Ht Hs. unfold Environment.getOrDefault.
    rewrite Ht, Hraw, dispatch_shape.
    destruct Hs as [[a ->]| ->]; reflexivity.
  - intros l ->. unfold Environment.getOrDefault. rewrite Hraw. reflexivity.
Qed.

(** C6, on the code.  When no variable [key] is set and [key] names a
    member that [process.env] inherits from [Object.prototype], the
    value read is that member, which has no [split]: every call that
    resolves to an array shape throws a [TypeError] where the default
    was to be returned (each declared [array<T>], the bare [array] type,
    a sequence default in the [default] case of the switch). *)
Theorem array_inherited_key_throws (env : gmap string string)
    (key : string) (d : JSVal) (m : Member) :
  env !! key = None ->
  env_inherited key = Some m ->
  (forall elem, In elem Environment.element_types ->
     Environment.getOrDefault env key d (Some ("array<" +:+ elem +:+ ">"))
     = Raise TypeError)
  /\ (forall ot type,
        Environment.resolveType d ot = Some type ->
        (exists a, Environment.shapeOf type d = Environment.ArrayOf a)
        \/ Environment.shapeOf type d = Environment.Sequence ->
        Environment.getOrDefault env key d ot = Raise TypeError)
  /\ (forall l, d = VArr l ->
        Environment.getOrDefault env key d None = Raise TypeError).
Proof.
  intros Hraw Hm. pose proof (env_get_inherited env key m Hraw Hm) as Hv.
  split; [|split].
  - intros elem Hin. unfold Environment.getOrDefault.
    rewrite resolveType_declared, Hv. unfold Environment.dispatch.
    rewrite (unpackArray_element elem Hin). reflexivity.
  - intros ot type Ht Hs. unfold Environment.getOrDefault.
    rewrite Ht, Hv, dispatch_shape.
    destruct Hs as [[a ->]| ->]; reflexivity.
  - intros l ->. unfold Environment.getOrDefault. rewrite Hv. reflexivity.
Qed.

End Arrays.

(** ** Callbacks, patterns and numbers *)

Section Scalars.
Context `{Host}.

(** With a function as default (and no optional type): a variable set to
    a non-empty string is returned as it is; a variable that is empty
    makes the call invoke the function, and so does a variable that is
    unset when [key] names no inherited member; the outcome of the call
    is then exactly the outcome of the function. *)
Lemma callback_default (env : gmap string string) (key : string)
    (src : string) (f : unit -> Result JSVal) (raw : string) :
  raw <> EmptyString ->
  Environment.getOrDefault (<[key := raw]> env) key (VFun src f) None
  = Ok (VStr raw)
  /\ Environment.getOrDefault (<[key := EmptyString]> env) key (VFun src f) None
     = f tt
  /\ (env_inherited key = None ->
      Environment.getOrDefault (delete key env) key (VFun src f) None
      = f tt).
Proof.
  intros Hraw. unfold Environment.getOrDefault.
  rewrite !env_get_insert, env_get_delete.
  repeat split; try reflexivity.
  - destruct raw; [contradiction | reflexivity].
  - now intros ->.
Qed.

(** C7, on the code.  When no variable [key] is set and [key] names a
    member that [process.env] inherits from [Object.prototype], the
    value read is that member and it is truthy: the call returns the
    member, and the default function is not invoked (its outcome, an
    exception included, has no part in the result). *)
Theorem callback_inherited_key_skips_default (env : gmap string string)
    (key : string) (src : string) (f : unit -> Result JSVal) (m : Member) :
  env !! key = None ->
  env_inherited key = Some m ->
  Environment.getOrDefault env key (VFun src f) None = Ok (member_value m)
  /\ Environment.getOrDefault env key (VFun src f) (Some "function")
     = Ok (member_value m)
  /\ Environment.getOrDefault env key (VFun src (fun _ => Raise TypeError)) None
     = Environment.getOrDefault env key (VFun src f) None.
Proof.
  intros Hraw Hm. unfold Environment.getOrDefault.
  rewrite (env_get_inherited env key m Hraw Hm).
  repeat split; reflexivity.
Qed.

(** C9. With a pattern as default, inferred or declared [regexp]: the
    text that is compiled is what [process.env[key]] reads (the raw
    string when the variable is set) and the source of the default when
    that is undefined, and the flags are those of the default in every
    case (in the order the [flags] getter lists them).  The raw string
    has no part in the flags. *)
Theorem pattern_flags_from_default (env : gmap string string) (key : string)
    (source flags : string) (ot : option string) :
  ot = None \/ ot = Some "regexp" ->
  let text := env_text (env_get env key) source in
  Environment.getOrDefault env key (VRegExp source flags) ot
  = (if regexp_compiles text flags
     then Ok (VRegExp (regexp_source text) (canonical_flags flags))
     else Raise SyntaxError)
  /\ (forall raw, env !! key = Some raw -> text = raw)
  /\ (env_get env key = Unset -> text = source).
Proof.
  intros Hot text. subst text. split; [|split].
  - unfold Environment.getOrDefault.
    destruct Hot as [-> | ->]; destruct (env_get env key) as [|raw|m];
      try reflexivity; now destruct m.
  - intros raw Hraw. now rewrite (env_get_raw env key raw Hraw).
  - now intros ->.
Qed.

(** C10. On the number shape (a number as default, or [number] declared
    with any default), a variable set to the empty string gives [NaN]:
    the default is not consulted.  It is consulted when the variable is
    removed and [key] names no inherited member: the result is then the
    float read from the string of the default; when [key] names an
    inherited member, the text of the member is read. *)
Theorem number_empty_raw_is_NaN (env : gmap string string) (key : string)
    (d : JSVal) (ot : option string) (type : string) :
  Environment.resolveType d ot = Some type ->
  Environment.shapeOf type d = Environment.Number ->
  env !! key = Some EmptyString ->
  Environment.getOrDefault env key d ot = Ok (VNum NaN)
  /\ (env_inherited key = None ->
      Environment.getOrDefault (delete key env) key d ot
      = (arg ← toString_call d; parseFloat_of arg))
  /\ (forall m, env_inherited key = Some m ->
      Environment.getOrDefault (delete key env) key d ot
      = Ok (VNum (parseFloat (member_text m)))).
Proof.
  intros Ht Hs Hraw. unfold Environment.getOrDefault.
  rewrite Ht, (env_get_raw env key _ Hraw), env_get_delete, !dispatch_shape, Hs.
  split; [|split].
  - simpl. unfold parseFloat_of. simpl. now rewrite parseFloat_empty.
  - now intros ->.
  - intros m ->. now rewrite parseFloat_of_env.
Qed.

(** The two ways to the number shape, and the float read from a number
    given as default. *)
Lemma number_shape (d : JSVal) (n : number) :
  Environment.shapeOf "number" d = Environment.Number
  /\ Environment.resolveType (VNum n) None = Some "number"
  /\ (arg ← toString_call (VNum n); parseFloat_of arg)
     = Ok (VNum (parseFloat (number_toString n))).
Proof. repeat split; reflexivity. Qed.

End Scalars.

(** ** The docker memo *)

Section Memo.
Import Docker.

Lemma isDocker_not_linux (this : Class) (w : World) :
  String.eqb (platform w) "linux" = false -> isDocker this w = (false, w).
Proof. unfold isDocker. now intros ->. Qed.

Lemma isDocker_memo (this : Class) (w : World) (b : bool) :
  String.eqb (platform w) "linux" = true ->
  get_isDocker (_isDocker w) this = Some b ->
  isDocker this w = (b, w).
Proof. unfold isDocker. now intros -> ->. Qed.

(** A field of the class itself is the one that is read. *)
Lemma get_isDocker_own (cells : gmap Class bool) (this : Class) (b : bool) :
  cells !! this = Some b -> get_isDocker cells this = Some b.
Proof. intros E. destruct this; simpl; now rewrite E. Qed.

(** A class without a field of its own reads the field of its parent. *)
Lemma get_isDocker_parent (cells : gmap Class bool) (name : string)
    (parent : Class) :
  cells !! (name :: parent) = None ->
  get_isDocker cells (name :: parent) = get_isDocker cells parent.
Proof. intros E. change (get_isDocker cells (name :: parent))
  with (match cells !! (name :: parent) with
        | Some b => Some b
        | None => get_isDocker cells parent
        end). now rewrite E. Qed.

(** A write on a class that read [undefined] leaves what every class
    read before as it was. *)
Lemma get_isDocker_insert_unset (cells : gmap Class bool) (c this : Class)
    (b b' : bool) :
  get_isDocker cells c = None ->
  get_isDocker cells this = Some b ->
  get_isDocker (<[c := b']> cells) this = Some b.
Proof.
  intros Hc. induction this as [|name parent IH]; intros Ht.
  - assert (c <> []) by (intros ->; congruence).
    simpl in *. rewrite lookup_insert_ne by assumption. exact Ht.
  - assert (c <> name :: parent) by (intros ->; congruence).
    simpl in *. rewrite lookup_insert_ne by assumption.
    revert Ht. case_match; [easy | exact IH].
Qed.

(** A write on a class is not seen from its ancestors. *)
Lemma get_isDocker_insert_longer (cells : gmap Class bool) (c this : Class)
    (b : bool) :
  length this < length c ->
  get_isDocker (<[c := b]> cells) this = get_isDocker cells this.
Proof.
  induction this as [|name parent IH]; intros Hl.
  - assert (c <> []) by (intros ->; simpl in Hl; lia).
    simpl. now rewrite lookup_insert_ne.
  - assert (c <> name :: parent) by (intros ->; lia).
    simpl in *. rewrite lookup_insert_ne by assumption.
    case_match; [reflexivity|]. apply IH. lia.
Qed.

(** On linux, after a call on a class, that class reads what the call
    returned. *)
Lemma isDocker_computes (this : Class) (w : World) :
  String.eqb (platform w) "linux" = true ->
  get_isDocker (_isDocker (isDocker this w).2) this = Some (isDocker this w).1.
Proof.
  intros L. unfold isDocker, hasDockerEnv, hasDockerCGroup. rewrite L. simpl.
  destruct (get_isDocker (_isDocker w) this) as [b|] eqn:M; [exact M|].
  destruct (existsSync w "/.dockerenv"); simpl.
  - apply get_isDocker_own, lookup_insert_eq.
  - rewrite L. simpl.
    destruct (readFileSync w "/proc/self/cgroup"); simpl;
      apply get_isDocker_own, lookup_insert_eq.
Qed.

(** No step changes the platform; no step changes what a class reads
    once it reads a boolean. *)
Lemma step_platform (w w' : World) : step w w' -> platform w' = platform w.
Proof.
  destruct 1; unfold isDocker, hasDockerEnv, hasDockerCGroup; simpl;
    try reflexivity;
    destruct (String.eqb (platform w) "linux") eqn:L; simpl;
    try reflexivity.
  - destruct (get_isDocker (_isDocker w) this); [reflexivity|].
    destruct (existsSync w "/.dockerenv"); simpl; [reflexivity|].
    rewrite L; simpl.
    destruct (readFileSync w "/proc/self/cgroup"); reflexivity.
  - destruct (readFileSync w "/proc/self/cgroup"); reflexivity.
Qed.

Lemma step_memo (w w' : World) (this : Class) (b : bool) :
  step w w' ->
  get_isDocker (_isDocker w) this = Some b ->
  get_isDocker (_isDocker w') this = Some b.
Proof.
  destruct 1 as [c w| | |]; intros M;
    unfold isDocker, hasDockerEnv, hasDockerCGroup;
    simpl; try exact M;
    destruct (String.eqb (platform w) "linux") eqn:L; simpl;
    try exact M.
  - destruct (get_isDocker (_isDocker w) c) eqn:C; [exact M|].
    destruct (existsSync w "/.dockerenv"); simpl.
    + now apply get_isDocker_insert_unset.
    + rewrite L. simpl.
      destruct (readFileSync w "/proc/self/cgroup"); simpl;
        now apply get_isDocker_insert_unset.
  - destruct (readFileSync w "/proc/self/cgroup"); exact M.
Qed.

Lemma step_memo_not_linux (w w' : World) :
  step w w' -> String.eqb (platform w) "linux" = false ->
  _isDocker w' = _isDocker w.
Proof.
  destruct 1; intros L; unfold isDocker, hasDockerEnv, hasDockerCGroup;
    simpl; rewrite ?L; reflexivity.
Qed.

Lemma steps_platform (w w' : World) :
  rtc step w w' -> platform w' = platform w.
Proof.
  induction 1 as [|w1 w2 w3 S _ IH]; [reflexivity|].
  rewrite IH. now apply step_platform.
Qed.

Lemma steps_memo (w w' : World) (this : Class) (b : bool) :
  rtc step w w' ->
  get_isDocker (_isDocker w) this = Some b ->
  get_isDocker (_isDocker w') this = Some b.
Proof.
  induction 1 as [|w1 w2 w3 S _ IH]; [easy|].
  intros M. apply IH. eapply step_memo; eassumption.
Qed.

Lemma steps_memo_not_linux (w w' : World) :
  rtc step w w' -> String.eqb (platform w) "linux" = false ->
  _isDocker w' = _isDocker w.
Proof.
  induction 1 as [|w1 w2 w3 S _ IH]; [easy|].
  intros L. rewrite IH.
  - now apply step_memo_not_linux.
  - now rewrite (step_platform _ _ S).
Qed.

(** The memo of one class.  Once a call of [isDocker] on a class has
    returned [b], every later call on the same class returns [b] again,
    whatever happened in between (calls of the static methods on any
    class, changes of the file system): the later call makes no call
    into [fs] and writes no field. *)
Lemma isDocker_memo_stable (this : Class) (w0 w1 w : World) (b : bool) :
  isDocker this w0 = (b, w1) ->
  rtc step w1 w ->
  isDocker this w = (b, w).
Proof.
  intros E R.
  pose proof (steps_platform _ _ R) as P.
  assert (P1 : platform w1 = platform w0).
  { replace w1 with (isDocker this w0).2 by now rewrite E.
    apply step_platform, step_isDocker. }
  destruct (String.eqb (platform w0) "linux") eqn:L.
  - pose proof (isDocker_computes this w0 L) as M. rewrite E in M. simpl in M.
    apply isDocker_memo; [now rewrite P, P1|].
    eapply steps_memo; eassumption.
  - rewrite (isDocker_not_linux this w0 L) in E. inversion E; subst.
    apply isDocker_not_linux. now rewrite P.
Qed.

(** C8, on the code.  The memo is read and written through [this]: a
    first call on a class that extends another writes the field of that
    class only, and its parent still reads [undefined].  A later call on
    the parent therefore probes the file system again, and answers by
    the file system as it then is. *)
Theorem isDocker_subclass_recomputes (w : World) (name : string)
    (parent : Class) (ex : string -> bool) (rd : string -> option string) :
  String.eqb (platform w) "linux" = true ->
  get_isDocker (_isDocker w) (name :: parent) = None ->
  let w1 := (isDocker (name :: parent) w).2 in
  let w2 := set_fs ex rd w1 in
  let e := ex "/.dockerenv" in
  let c := match rd "/proc/self/cgroup" with
           | Some text => Str.includes text "docker"
           | None => false
           end in
  get_isDocker (_isDocker w1) (name :: parent)
  = Some (isDocker (name :: parent) w).1
  /\ get_isDocker (_isDocker w2) parent = None
  /\ (isDocker parent w2).1 = e || c
  /\ probes (isDocker parent w2).2
     = (probes w2 ++ (if e then [ExistsSync "/.dockerenv"]
                      else [ExistsSync "/.dockerenv";
                            ReadFileSync "/proc/self/cgroup"]))%list.
Proof.
  intros L M w1 w2 e c.
  assert (Mp : get_isDocker (_isDocker w) parent = None).
  { simpl in M. revert M. case_match; [discriminate | easy]. }
  assert (M2 : get_isDocker (_isDocker w2) parent = None).
  { subst w2 w1. unfold isDocker, hasDockerEnv, hasDockerCGroup.
    rewrite L, M. simpl.
    destruct (existsSync w "/.dockerenv"); simpl.
    - rewrite get_isDocker_insert_longer by (simpl; lia). exact Mp.
    - rewrite L. simpl.
      destruct (readFileSync w "/proc/self/cgroup"); simpl;
        (rewrite get_isDocker_insert_longer by (simpl; lia)); exact Mp. }
  assert (L2 : String.eqb (platform w2) "linux" = true).
  { subst w2 w1. simpl.
    rewrite (step_platform w _ (step_isDocker (name :: parent) w)). exact L. }
  split; [now apply isDocker_computes|]. split; [exact M2|].
  assert (Hex : existsSync w2 = ex) by reflexivity.
  assert (Hrd : readFileSync w2 = rd) by reflexivity.
  subst e c. clearbody w2. clear w1.
  unfold isDocker, hasDockerEnv, hasDockerCGroup.
  rewrite L2, M2. simpl. rewrite Hex.
  destruct (ex "/.dockerenv"); simpl.
  - split; reflexivity.
  - rewrite L2. simpl. rewrite Hrd.
    destruct (rd "/proc/self/cgroup"); simpl;
      rewrite <- app_assoc; split; reflexivity.
Qed.

End Memo.

(** ** The earlier revision *)

Section EarlierRevision.
Context `{Host}.

(** The optional type is consulted for a nullish default only: with a
    number as default, [bigint] is not honoured. *)
Lemma Rev1_ignores_declared_shape (env : gmap string string) (key : string)
    (n : number) (s : string) :
  Rev1.resolveType (VNum n) (Some s) = Some "number"
  /\ Rev1.getOrDefault (<[key := "1"]> env) key (VNum n) (Some "bigint")
     = Ok (VNum (parseFloat "1")).
Proof.
  split; [reflexivity|]. unfold Rev1.getOrDefault.
  rewrite env_get_insert. reflexivity.
Qed.

(** Every default of runtime type [object] (a sequence and a pattern
    included) is taken by the [object] case of the switch. *)
Lemma Rev1_object_case (env : gmap string string) (key : string) (d : JSVal)
    (ot : option string) :
  nullish d = false -> typeOf d = "object" ->
  Rev1.getOrDefault env key d ot
  = (arg ← coalesce (env_get env key) (toString_call d); JSON_parse_of arg).
Proof.
  intros Hn Ht. unfold Rev1.getOrDefault, Rev1.resolveType.
  rewrite Hn, Ht. reflexivity.
Qed.

(** With [null] as default and no optional type, the [default] case is
    reached and [typeof null] is [object]. *)
Lemma Rev1_null_untyped (env : gmap string string) (key : string) :
  Rev1.getOrDefault env key VNull None
  = match env_get env key with
    | Raw raw => JSON_parse_opt (Some raw)
    | Unset => text ← JSON_stringify_value VNull; JSON_parse_of text
    | Inherited m => JSON_parse_opt (Some (member_text m))
    end.
Proof.
  unfold Rev1.getOrDefault. simpl.
  destruct (env_get env key) as [| |m]; try reflexivity. now destruct m.
Qed.

(** The two revisions agree on the callback and on the number shape. *)
Lemma Rev1_callback (env : gmap string string) (key src : string)
    (f : unit -> Result JSVal) :
  Rev1.getOrDefault env key (VFun src f) None
  = Environment.getOrDefault env key (VFun src f) None.
Proof. reflexivity. Qed.

Lemma Rev1_number (env : gmap string string) (key : string) (n : number) :
  Rev1.getOrDefault env key (VNum n) None
  = Environment.getOrDefault env key (VNum n) None.
Proof. reflexivity. Qed.

End EarlierRevision.

(** ** More on strings *)

Lemma prefix_app (p s : string) :
  String.prefix p s = true <-> exists post, s = p +:+ post.
Proof.
  revert s. induction p as [|c p IH]; intros s.
  - split; [intros _; now exists s | now destruct s].
  - destruct s as [|d s]; simpl.
    + split; [discriminate | intros [post E]; discriminate].
    + destruct (Ascii.ascii_dec c d) as [->|Hne].
      * rewrite IH. split; intros [post E]; exists post.
        -- now rewrite E.
        -- now inversion E.
      * split; [discriminate|]. intros [post E]. inversion E. congruence.
Qed.

(** [s.includes(p)] holds exactly when [p] occurs in [s]. *)
Lemma includes_app (s p : string) :
  Str.includes s p = true <-> exists pre post, s = pre +:+ p +:+ post.
Proof.
  induction s as [|c s IH].
  - change (Str.includes EmptyString p)
      with (String.prefix p EmptyString || false).
    rewrite orb_false_r, prefix_app. split.
    + intros [post E]. now exists EmptyString, post.
    + intros (pre & post & E). destruct pre; simpl in E.
      * now exists post.
      * discriminate.
  - change (Str.includes (String c s) p)
      with (String.prefix p (String c s) || Str.includes s p).
    rewrite orb_true_iff, IH, prefix_app. split.
    + intros [[post E]|(pre & post & E)].
      * now exists EmptyString, post.
      * exists (String c pre), post. simpl. now rewrite E.
    + intros (pre & post & E). destruct pre as [|d pre]; simpl in E.
      * left. now exists post.
      * right. inversion E. now exists pre, post.
Qed.

Lemma split_nonempty (sep : ascii) (s : string) : Str.split sep s <> [].
Proof.
  intros E. pose proof (split_length sep s) as L. rewrite E in L. discriminate.
Qed.

(** Joining the segments with the separator gives the string back. *)
Lemma join_split (sep : ascii) (s : string) :
  Str.join (String sep EmptyString) (Str.split sep s) = s.
Proof.
  induction s as [|c s IH]; simpl; [reflexivity|].
  destruct (Ascii.eqb_spec c sep) as [->|Hne].
  - destruct (Str.split sep s) as [|seg rest] eqn:E.
    + now destruct (split_nonempty sep s).
    + change (Str.join (String sep EmptyString) (EmptyString :: seg :: rest))
        with (String sep (Str.join (String sep EmptyString) (seg :: rest))).
      now rewrite IH.
  - destruct (Str.split sep s) as [|seg rest] eqn:E.
    + now destruct (split_nonempty sep s).
    + destruct rest as [|seg' rest]; simpl in *; [now rewrite IH|].
      rewrite <- IH. reflexivity.
Qed.

(** No segment holds the separator. *)
Lemma split_sep_free (sep : ascii) (s : string) :
  Forall (fun seg => Str.count sep seg = 0) (Str.split sep s).
Proof.
  induction s as [|c s IH]; simpl.
  - now constructor.
  - destruct (Ascii.eqb_spec c sep) as [->|Hne].
    + now constructor.
    + destruct (Str.split sep s) as [|seg rest].
      * constructor; [|constructor]. simpl.
        now destruct (Ascii.eqb_spec c sep).
      * inversion IH; subst. constructor; [|assumption]. simpl.
        now destruct (Ascii.eqb_spec c sep).
Qed.

Lemma replace_cons (pat rep : string) (c : ascii) (s : string) :
  Str.replace pat rep (String c s)
  = if String.prefix pat (String c s)
    then rep +:+ Str.drop (String.length pat) (String c s)
    else String c (Str.replace pat rep s).
Proof. reflexivity. Qed.

(** Removing the first [>] of a text that ends in its only one. *)
Lemma replace_closing (elem : string) :
  Str.count ">" elem = 0 ->
  Str.replace ">" EmptyString (elem +:+ ">") = elem.
Proof.
  induction elem as [|c elem IH]; [reflexivity|].
  intros Hc. simpl in Hc.
  destruct (Ascii.eqb_spec c ">") as [->|Hne]; [discriminate|].
  change (String c elem +:+ ">") with (String c (elem +:+ ">")).
  rewrite replace_cons.
  destruct (String.prefix ">" (String c (elem +:+ ">"))) eqn:P.
  - apply prefix_app in P as [post E]. inversion E. congruence.
  - rewrite IH by exact Hc. reflexivity.
Qed.

(** ** More on the docker probes *)

Section Probes.
Import Docker.

Lemma step_probes_not_linux (w w' : World) :
  step w w' -> String.eqb (platform w) "linux" = false ->
  probes w' = probes w.
Proof.
  destruct 1; intros L; unfold isDocker, hasDockerEnv, hasDockerCGroup;
    simpl; rewrite ?L; reflexivity.
Qed.

Lemma steps_probes_not_linux (w w' : World) :
  rtc step w w' -> String.eqb (platform w) "linux" = false ->
  probes w' = probes w.
Proof.
  induction 1 as [|w1 w2 w3 S _ IH]; [easy|].
  intros L. rewrite IH.
  - now apply step_probes_not_linux.
  - now rewrite (step_platform _ _ S).
Qed.

(** X1. In a process whose platform is not linux, nothing that can
    happen (calls of the three static methods on any class, changes of
    the file system) leads to a call into [fs] or to a write of
    [_isDocker], and the three methods answer [false], on every class. *)
Theorem not_linux_never_probes (w w' : World) :
  String.eqb (platform w) "linux" = false ->
  rtc step w w' ->
  probes w' = probes w
  /\ _isDocker w' = _isDocker w
  /\ (forall this, isDocker this w' = (false, w'))
  /\ hasDockerEnv w' = (false, w')
  /\ hasDockerCGroup w' = (false, w').
Proof.
  intros L R.
  assert (L' : String.eqb (platform w') "linux" = false)
    by now rewrite (steps_platform _ _ R).
  split; [now apply steps_probes_not_linux|].
  split; [now apply steps_memo_not_linux|].
  unfold isDocker, hasDockerEnv, hasDockerCGroup. now rewrite L'.
Qed.

(** X2. [hasDockerCGroup] answers [true] exactly when the platform is
    linux, [/proc/self/cgroup] can be read and its text holds [docker]
    somewhere; a read that throws gives [false]. *)
Theorem hasDockerCGroup_true_iff (w : World) :
  (hasDockerCGroup w).1 = true
  <-> platform w = "linux"
      /\ exists text pre post,
           readFileSync w "/proc/self/cgroup" = Some text
           /\ text = pre +:+ "docker" +:+ post.
Proof.
  unfold hasDockerCGroup.
  destruct (String.eqb_spec (platform w) "linux") as [L|L]; simpl.
  - destruct (readFileSync w "/proc/self/cgroup") as [text|]; simpl.
    + rewrite includes_app. split.
      * intros (pre & post & E). split; [exact L|]. now exists text, pre, post.
      * intros (_ & t & pre & post & Et & E). inversion Et; subst.
        now exists pre, post.
    + split; [discriminate|]. intros (_ & t & pre & post & Et & _).
      discriminate.
  - split; [discriminate|]. intros [E _]. contradiction.
Qed.

(** X3. The first call of [isDocker] on linux, on a class that reads
    [undefined] in [_isDocker]: the answer is
    [hasDockerEnv() || hasDockerCGroup()], it is stored in the field of
    that class, and the cgroup file is read only when [/.dockerenv] does
    not exist. *)
Theorem isDocker_first_call (this : Class) (w : World) :
  String.eqb (platform w) "linux" = true ->
  get_isDocker (_isDocker w) this = None ->
  let e := existsSync w "/.dockerenv" in
  let c := match readFileSync w "/proc/self/cgroup" with
           | Some text => Str.includes text "docker"
           | None => false
           end in
  (isDocker this w).1 = e || c
  /\ _isDocker (isDocker this w).2 = <[this := e || c]> (_isDocker w)
  /\ get_isDocker (_isDocker (isDocker this w).2) this = Some (e || c)
  /\ probes (isDocker this w).2
     = (probes w ++ (if e then [ExistsSync "/.dockerenv"]
                     else [ExistsSync "/.dockerenv";
                           ReadFileSync "/proc/self/cgroup"]))%list
  /\ (isDocker this w).1 = (hasDockerEnv w).1 || (hasDockerCGroup w).1.
Proof.
  intros L M e c. subst e c.
  unfold isDocker, hasDockerEnv, hasDockerCGroup. rewrite L, M. simpl.
  destruct (existsSync w "/.dockerenv"); simpl.
  - repeat split; try reflexivity. apply get_isDocker_own, lookup_insert_eq.
  - rewrite L. simpl.
    destruct (readFileSync w "/proc/self/cgroup"); simpl;
      rewrite <- app_assoc; repeat split; try reflexivity;
      apply get_isDocker_own, lookup_insert_eq.
Qed.

Lemma step_probes (w w' : World) :
  step w w' ->
  exists l, probes w' = (probes w ++ l)%list
            /\ Forall (fun p => p = ExistsSync "/.dockerenv"
                                \/ p = ReadFileSync "/proc/self/cgroup") l.
Proof.
  assert (N : forall w0 : World, exists l, probes w0 = (probes w0 ++ l)%list
            /\ Forall (fun p => p = ExistsSync "/.dockerenv"
                                \/ p = ReadFileSync "/proc/self/cgroup") l).
  { intros w0. exists []. now rewrite app_nil_r. }
  destruct 1 as [this w| | |]; unfold isDocker, hasDockerEnv, hasDockerCGroup;
    destruct (String.eqb (platform w) "linux") eqn:L; simpl;
    try apply N.
  - destruct (get_isDocker (_isDocker w) this); [apply N|].
    destruct (existsSync w "/.dockerenv"); simpl.
    + eexists. split; [reflexivity|].
      repeat apply Forall_cons; try apply Forall_nil; auto.
    + rewrite L. simpl.
      destruct (readFileSync w "/proc/self/cgroup"); simpl;
        rewrite <- app_assoc; eexists; (split; [reflexivity|]);
        repeat apply Forall_cons; try apply Forall_nil; auto.
  - eexists. split; [reflexivity|].
    repeat apply Forall_cons; try apply Forall_nil; auto.
  - destruct (readFileSync w "/proc/self/cgroup"); simpl;
      eexists; (split; [reflexivity|]);
      repeat apply Forall_cons; try apply Forall_nil; auto.
Qed.

(** X4. Whatever happens in a process, the log of calls into [fs] only
    grows, and every call added is [existsSync('/.dockerenv')] or
    [readFileSync('/proc/self/cgroup')]: no other path is ever touched. *)
Theorem probes_two_paths_only (w w' : World) :
  rtc step w w' ->
  exists l, probes w' = (probes w ++ l)%list
            /\ Forall (fun p => p = ExistsSync "/.dockerenv"
                                \/ p = ReadFileSync "/proc/self/cgroup") l.
Proof.
  induction 1 as [w|w1 w2 w3 S _ (l2 & E2 & F2)].
  - exists []. split; [now rewrite app_nil_r | constructor].
  - destruct (step_probes _ _ S) as (l1 & E1 & F1).
    exists (l1 ++ l2)%list. split.
    + now rewrite E2, E1, app_assoc.
    + now apply Forall_app.
Qed.

End Probes.

(** ** More on the resolution of a variable *)

Section MoreResolution.
Context `{Host}.

(** X5. With a string as default, inferred or declared [string]: a
    variable set to a non-empty string is returned; a variable that is
    set to the empty string gives the default, and so does a variable
    that is unset when [key] names no inherited member; when it names
    one, that member is returned in place of the default. *)
Theorem string_default_passthrough (env : gmap string string) (key : string)
    (s raw : string) (ot : option string) :
  ot = None \/ ot = Some "string" ->
  raw <> EmptyString ->
  Environment.getOrDefault (<[key := raw]> env) key (VStr s) ot
  = Ok (VStr raw)
  /\ Environment.getOrDefault (<[key := EmptyString]> env) key (VStr s) ot
     = Ok (VStr s)
  /\ (env_inherited key = None ->
      Environment.getOrDefault (delete key env) key (VStr s) ot
      = Ok (VStr s))
  /\ (forall m, env_inherited key = Some m ->
      Environment.getOrDefault (delete key env) key (VStr s) ot
      = Ok (member_value m)).
Proof.
  intros Hot Hraw. unfold Environment.getOrDefault.
  rewrite !env_get_insert, env_get_delete.
  destruct Hot as [-> | ->]; (repeat split; try reflexivity);
    try (destruct raw; [contradiction | reflexivity]);
    try (now intros ->); try (now intros m ->).
Qed.

(** X6. With a sequence as default, or with [array<string>] declared,
    and the variable set: the result is the array of the comma-separated
    segments of the raw string, as strings.  Joining them with commas
    gives the raw string back, and no segment holds a comma. *)
Theorem sequence_default_split (env : gmap string string) (key : string)
    (l : list JSVal) (d : JSVal) (raw : string) :
  env !! key = Some raw ->
  let segments := Str.split "," raw in
  Environment.getOrDefault env key (VArr l) None
  = Ok (VArr (VStr <$> segments))
  /\ Environment.getOrDefault env key d (Some "array<string>")
     = Ok (VArr (VStr <$> segments))
  /\ Str.join "," segments = raw
  /\ Forall (fun seg => Str.count "," seg = 0) segments.
Proof.
  intros Hraw segments. subst segments. unfold Environment.getOrDefault.
  rewrite resolveType_declared, (env_get_raw env key raw Hraw).
  split; [reflexivity|]. split; [reflexivity|].
  split; [apply join_split | apply split_sep_free].
Qed.

(** X7. In the [default] case of the switch the class of the default is
    tested before the type: with a sequence or a pattern as default,
    declaring [object] or [string] changes nothing, and the raw string
    is split, or compiled, and never parsed as JSON.  With a sequence
    as default the call splits the raw string, returns the default when
    [process.env[key]] is undefined, and throws a [TypeError] when it is
    an inherited member. *)
Theorem default_class_before_declared (env : gmap string string)
    (key : string) (l : list JSVal) (source flags : string) :
  Environment.getOrDefault env key (VArr l) (Some "object")
  = Environment.getOrDefault env key (VArr l) None
  /\ Environment.getOrDefault env key (VArr l) (Some "string")
     = Environment.getOrDefault env key (VArr l) None
  /\ Environment.getOrDefault env key (VRegExp source flags) (Some "object")
     = Environment.getOrDefault env key (VRegExp source flags) None
  /\ Environment.getOrDefault env key (VRegExp source flags) (Some "string")
     = Environment.getOrDefault env key (VRegExp source flags) None
  /\ Environment.getOrDefault env key (VArr l) (Some "object")
     = match env_get env key with
       | Raw raw => Ok (VArr (VStr <$> Str.split "," raw))
       | Unset => Ok (VArr l)
       | Inherited _ => Raise TypeError
       end.
Proof.
  repeat split; try reflexivity.
  unfold Environment.getOrDefault. now destruct (env_get env key).
Qed.

(** X8. A declared [regexp] with [null] or [undefined] as default
    throws a [TypeError] on every call, whatever [process.env[key]] is
    (the flags are read from the default); a declared [bigint] with such
    a default throws a [TypeError] when [process.env[key]] is undefined. *)
Theorem declared_without_default_throws (env : gmap string string)
    (key : string) :
  Environment.getOrDefault env key VUndefined (Some "regexp") = Raise TypeError
  /\ Environment.getOrDefault env key VNull (Some "regexp") = Raise TypeError
  /\ (env_get env key = Unset ->
      Environment.getOrDefault env key VUndefined (Some "bigint")
      = Raise TypeError
      /\ Environment.getOrDefault env key VNull (Some "bigint")
         = Raise TypeError).
Proof.
  unfold Environment.getOrDefault.
  repeat split; try (now destruct (env_get env key));
    match goal with E : _ = Unset |- _ => now rewrite E end.
Qed.

Lemma replace_opening (rest : string) :
  Str.replace "array<" EmptyString ("array<" +:+ rest) = rest.
Proof.
  change ("array<" +:+ rest) with (String "a" ("rray<" +:+ rest)).
  rewrite replace_cons.
  replace (String.prefix "array<" (String "a" ("rray<" +:+ rest))) with true
    by (symmetry; apply prefix_app; now exists rest).
  reflexivity.
Qed.

Lemma unpackArray_text (elem : string) :
  Str.count ">" elem = 0 ->
  Environment.unpackArray ("array<" +:+ elem +:+ ">") = ("array", Some elem).
Proof.
  intros Hc. unfold Environment.unpackArray, Str.startsWith.
  replace (String.prefix "array<" ("array<" +:+ elem +:+ ">")) with true
    by (symmetry; apply prefix_app; now exists (elem +:+ ">")).
  now rewrite replace_opening, replace_closing.
Qed.

(** X9. The element type of [array<T>] is the text between [array<] and
    [>], for every text without [>]; when it is none of [boolean],
    [number], [bigint], [object] and [regexp] (the empty text included),
    the raw elements are returned as strings. *)
Theorem array_other_element (env : gmap string string) (key : string)
    (d : JSVal) (elem raw : string) :
  Str.count ">" elem = 0 ->
  ~ In elem ["boolean"; "number"; "bigint"; "object"; "regexp"] ->
  env !! key = Some raw ->
  Environment.unpackArray ("array<" +:+ elem +:+ ">") = ("array", Some elem)
  /\ Environment.getOrDefault env key d (Some ("array<" +:+ elem +:+ ">"))
     = Ok (VArr (VStr <$> Str.split "," raw)).
Proof.
  intros Hc Hn Hraw. split; [now apply unpackArray_text|].
  unfold Environment.getOrDefault.
  rewrite resolveType_declared, (env_get_raw env key raw Hraw).
  unfold Environment.dispatch. rewrite (unpackArray_text elem Hc).
  cbn [String.eqb Ascii.eqb Bool.eqb]. simpl.
  unfold Environment.convertElements. simpl in Hn |- *.
  destruct (String.eqb_spec elem "boolean");
    [exfalso; apply Hn; subst; auto 10|].
  destruct (String.eqb_spec elem "number");
    [exfalso; apply Hn; subst; auto 10|].
  destruct (String.eqb_spec elem "bigint");
    [exfalso; apply Hn; subst; auto 10|].
  destruct (String.eqb_spec elem "object");
    [exfalso; apply Hn; subst; auto 10|].
  destruct (String.eqb_spec elem "regexp");
    [exfalso; apply Hn; subst; auto 10|].
  reflexivity.
Qed.

(** X10. With [number], [bigint] or an [array<T>] declared and the
    variable set, the default has no part in the result: two calls that
    differ in the default only agree, and the number and the BigInt are
    read from the raw string. *)
Theorem raw_takes_priority (env : gmap string string) (key : string)
    (d d' : JSVal) (raw : string) :
  env !! key = Some raw ->
  Environment.getOrDefault env key d (Some "number")
  = Ok (VNum (parseFloat raw))
  /\ Environment.getOrDefault env key d (Some "bigint") = BigInt (Some raw)
  /\ forall elem, In elem Environment.element_types ->
       Environment.getOrDefault env key d (Some ("array<" +:+ elem +:+ ">"))
       = Environment.getOrDefault env key d' (Some ("array<" +:+ elem +:+ ">")).
Proof.
  intros Hraw. unfold Environment.getOrDefault.
  split; [|split].
  - rewrite resolveType_declared, (env_get_raw env key raw Hraw). reflexivity.
  - rewrite resolveType_declared, (env_get_raw env key raw Hraw). reflexivity.
  - intros elem Hin.
    rewrite !resolveType_declared, (env_get_raw env key raw Hraw).
    unfold Environment.dispatch. rewrite (unpackArray_element elem Hin).
    reflexivity.
Qed.

(** X16. With a function as default and a declared shape, the switch
    runs on the declared shape and the function is not called: [number]
    and [bigint] read the text of [process.env[key]] (the raw string
    when the variable is set) or else the source text of the function,
    and [string] returns [process.env[key]] when it is truthy or else
    the function itself. *)
Theorem declared_shape_skips_callback (env : gmap string string)
    (key src : string) (f : unit -> Result JSVal) :
  let value := env_get env key in
  Environment.getOrDefault env key (VFun src f) (Some "number")
  = Ok (VNum (parseFloat (env_text value src)))
  /\ Environment.getOrDefault env key (VFun src f) (Some "bigint")
     = BigInt (Some (env_text value src))
  /\ Environment.getOrDefault env key (VFun src f) (Some "string")
     = Ok (if env_truthy value then env_value value else VFun src f)
  /\ (forall raw, env !! key = Some raw ->
        env_text value src = raw
        /\ env_truthy value = Str.truthy raw
        /\ env_value value = VStr raw).
Proof.
  intros value. subst value. unfold Environment.getOrDefault.
  split; [|split; [|split]].
  - destruct (env_get env key) as [| |m]; try reflexivity. now destruct m.
  - destruct (env_get env key) as [| |m]; try reflexivity. now destruct m.
  - reflexivity.
  - intros raw Hraw. now rewrite (env_get_raw env key raw Hraw).
Qed.

(** X17. With [object] declared and a default that is neither a
    sequence nor a pattern: when the variable is set, the raw string
    alone is parsed and the default is not serialised; when
    [process.env[key]] is undefined, the default is serialised first, so
    a default that cannot be serialised throws its error and a default
    without JSON text (a function, [undefined]) throws a
    [SyntaxError]. *)
Theorem object_shape_sources (env : gmap string string) (key : string)
    (d : JSVal) :
  isArray d = false ->
  isRegExp d = false ->
  (forall raw, env !! key = Some raw ->
     Environment.getOrDefault env key d (Some "object")
     = JSON_parse_opt (Some raw))
  /\ (env_get env key = Unset ->
      (forall e, JSON_stringify d = Raise e ->
         Environment.getOrDefault env key d (Some "object") = Raise e)
      /\ (JSON_stringify d = Ok None ->
          Environment.getOrDefault env key d (Some "object")
          = Raise SyntaxError)
      /\ (forall text, JSON_stringify d = Ok (Some text) ->
          Environment.getOrDefault env key d (Some "object")
          = JSON_parse_opt (Some text))).
Proof.
  intros Ha Hr. unfold Environment.getOrDefault.
  rewrite resolveType_declared.
  unfold Environment.dispatch, Environment.fallthrough.
  change (Environment.unpackArray "object") with ("object", @None string).
  cbn [String.eqb Ascii.eqb Bool.eqb]. rewrite Ha, Hr.
  split.
  - intros raw Hraw. now rewrite (env_get_raw env key raw Hraw).
  - intros ->. unfold JSON_stringify_value. simpl.
    split; [|split].
    + now intros e ->.
    + now intros ->.
    + now intros text ->.
Qed.

(** X12. In the earlier revision the optional type is not read when the
    default is neither [null] nor [undefined]: the call is the call
    without it. *)
Theorem Rev1_optional_type_unread (env : gmap string string) (key : string)
    (d : JSVal) (ot : option string) :
  nullish d = false ->
  Rev1.getOrDefault env key d ot = Rev1.getOrDefault env key d None.
Proof.
  intros Hn. unfold Rev1.getOrDefault, Rev1.resolveType. now rewrite Hn.
Qed.

(** X13. In the earlier revision a sequence, a pattern and an object as
    default all take the [object] case of the switch, so the tests on
    [Array.isArray] and [instanceof RegExp] of the [default] case are
    not reached with such a default: a raw string is parsed as JSON;
    when [process.env[key]] is undefined, what the [toString] of the
    default returns is parsed, which is the text [/source/flags] for a
    pattern and [[object Object]] for an object without a [toString] of
    its own. *)
Theorem Rev1_object_class_defaults (env : gmap string string) (key : string)
    (ot : option string) (l : list JSVal) (source flags : string)
    (fields : list (string * JSVal)) :
  let parsed d :=
    arg ← coalesce (env_get env key) (toString_call d); JSON_parse_of arg in
  (Rev1.getOrDefault env key (VArr l) ot = parsed (VArr l)
   /\ Rev1.getOrDefault env key (VRegExp source flags) ot
      = parsed (VRegExp source flags)
   /\ Rev1.getOrDefault env key (VObj fields) ot = parsed (VObj fields))
  /\ (forall raw d, env !! key = Some raw ->
        parsed d = JSON_parse_opt (Some raw))
  /\ (env_get env key = Unset ->
      parsed (VRegExp source flags)
      = JSON_parse_opt (Some ("/" +:+ source +:+ "/" +:+ flags))
      /\ (assoc "toString" fields = None ->
          parsed (VObj fields) = JSON_parse_opt (Some "[object Object]"))).
Proof.
  intros parsed. subst parsed. cbv beta.
  split; [|split].
  - repeat split; now apply Rev1_object_case.
  - intros raw d Hraw. now rewrite (env_get_raw env key raw Hraw).
  - intros ->. split; [reflexivity|]. intros E. simpl. now rewrite E.
Qed.

(** X14. The two revisions agree on every call without optional type
    whose default is a boolean, a number, a BigInt, a string or a
    function. *)
Theorem revisions_agree_on_primitives (env : gmap string string)
    (key : string) (d : JSVal) :
  In (typeOf d) ["boolean"; "number"; "bigint"; "string"; "function"] ->
  Rev1.getOrDefault env key d None = Environment.getOrDefault env key d None.
Proof.
  destruct d; simpl; intros Hin;
    try reflexivity;
    repeat (destruct Hin as [Hin|Hin]; [discriminate|]); contradiction.
Qed.

(** X15. In the earlier revision a call with [undefined] as default and
    no optional type does not throw: it returns the raw string when the
    variable is set and not empty, the inherited member when [key] names
    one and no variable is set, and [undefined] otherwise. *)
Theorem Rev1_undefined_untyped (env : gmap string string) (key : string) :
  exists v, Rev1.getOrDefault env key VUndefined None = Ok v
            /\ (env_get env key = Unset -> v = VUndefined)
            /\ (env !! key = Some EmptyString -> v = VUndefined)
            /\ (forall raw, env !! key = Some raw -> raw <> EmptyString ->
                  v = VStr raw)
            /\ (forall m, env_get env key = Inherited m ->
                  v = member_value m).
Proof.
  unfold Rev1.getOrDefault. simpl. eexists. split; [reflexivity|].
  split; [|split; [|split]].
  - now intros ->.
  - intros Hraw. now rewrite (env_get_raw env key _ Hraw).
  - intros raw Hraw Hne. rewrite (env_get_raw env key _ Hraw). simpl.
    destruct raw; [contradiction | reflexivity].
  - now intros m ->.
Qed.

End MoreResolution.

(** ** The string form of a BigInt *)

Lemma digits_from_acc (d : Decimal.uint) (acc : positive) :
  BigIntLit.digits_from 10 (N.pos acc) (NilEmpty.string_of_uint d)
  = Some (N.pos (Pos.of_uint_acc d acc)).
Proof.
  revert acc.
  induction d as [|d IH|d IH|d IH|d IH|d IH|d IH|d IH|d IH|d IH|d IH];
    intros acc; [reflexivity|..];
    cbn [NilEmpty.string_of_uint BigIntLit.digits_from Pos.of_uint_acc];
    match goal with
    | |- context [BigIntLit.digit 10 ?c] =>
        let v := eval vm_compute in (BigIntLit.digit 10 c) in
        change (BigIntLit.digit 10 c) with v
    end; cbv iota;
    match goal with
    | |- BigIntLit.digits_from _ ?a _ = Some (N.pos (Pos.of_uint_acc _ ?b)) =>
        replace a with (N.pos b) by lia
    end; apply IH.
Qed.

Lemma digits_from_zero (d : Decimal.uint) :
  BigIntLit.digits_from 10 0 (NilEmpty.string_of_uint d)
  = Some (Pos.of_uint d).
Proof.
  induction d as [|d IH|d IH|d IH|d IH|d IH|d IH|d IH|d IH|d IH|d IH];
    [reflexivity| exact IH |..];
    cbn [NilEmpty.string_of_uint BigIntLit.digits_from Pos.of_uint];
    match goal with
    | |- context [BigIntLit.digit 10 ?c] =>
        let v := eval vm_compute in (BigIntLit.digit 10 c) in
        change (BigIntLit.digit 10 c) with v
    end; cbv iota;
    match goal with
    | |- BigIntLit.digits_from _ ?a _ = Some (N.pos (Pos.of_uint_acc _ ?b)) =>
        change a with (N.pos b)
    end; apply digits_from_acc.
Qed.

Lemma trimEnd_digits (d : Decimal.uint) :
  Str.trimEnd (NilEmpty.string_of_uint d) = NilEmpty.string_of_uint d.
Proof.
  induction d as [|d IH|d IH|d IH|d IH|d IH|d IH|d IH|d IH|d IH|d IH];
    [reflexivity|..];
    cbn [NilEmpty.string_of_uint Str.trimEnd]; rewrite IH;
    now destruct (NilEmpty.string_of_uint d).
Qed.

Lemma trim_digits (d : Decimal.uint) :
  Str.trim (NilEmpty.string_of_uint d) = NilEmpty.string_of_uint d.
Proof.
  unfold Str.trim.
  replace (Str.trimStart (NilEmpty.string_of_uint d))
    with (NilEmpty.string_of_uint d) by now destruct d.
  apply trimEnd_digits.
Qed.

Lemma StringToBigInt_digits (d : Decimal.uint) :
  d <> Decimal.Nil ->
  BigIntLit.StringToBigInt (NilEmpty.string_of_uint d)
  = Some (Z.of_N (Pos.of_uint d)).
Proof.
  intros Hd. unfold BigIntLit.StringToBigInt. rewrite trim_digits.
  assert (D : BigIntLit.digits 10 (NilEmpty.string_of_uint d)
              = Some (Z.of_N (Pos.of_uint d))).
  { unfold BigIntLit.digits. rewrite digits_from_zero.
    destruct d; [contradiction|reflexivity..]. }
  destruct d as [|l|l|l|l|l|l|l|l|l|l]; [contradiction| |exact D..].
  destruct l; exact D.
Qed.

Lemma string_of_uint_nonempty (d : Decimal.uint) :
  d <> Decimal.Nil -> NilEmpty.string_of_uint d <> EmptyString.
Proof. destruct d; [contradiction|discriminate..]. Qed.

Lemma trim_minus (s : string) :
  s <> EmptyString -> Str.trimEnd s = s ->
  Str.trim (String "-" s) = String "-" s.
Proof.
  intros Hs Ht. unfold Str.trim.
  change (Str.trimStart (String "-" s)) with (String "-" s).
  cbn [Str.trimEnd]. rewrite Ht. now destruct s.
Qed.

(** Reading the decimal form of an integer gives the integer back. *)
Lemma StringToBigInt_toString (z : Z) :
  BigIntLit.StringToBigInt (Z_toString z) = Some z.
Proof.
  unfold Z_toString. destruct z as [|p|p]; [reflexivity|..]; simpl;
    pose proof (Unsigned.to_uint_nonnil p) as Hn;
    replace (NilZero.string_of_uint (Pos.to_uint p))
      with (NilEmpty.string_of_uint (Pos.to_uint p))
      by (destruct (Pos.to_uint p); [contradiction|reflexivity..]).
  - rewrite (StringToBigInt_digits _ Hn), Unsigned.of_to. reflexivity.
  - unfold BigIntLit.StringToBigInt.
    rewrite trim_minus
      by (apply string_of_uint_nonempty || apply trimEnd_digits; exact Hn).
    unfold BigIntLit.digits. rewrite digits_from_zero, Unsigned.of_to.
    now destruct (NilEmpty.string_of_uint (Pos.to_uint p)) eqn:E;
      [destruct (string_of_uint_nonempty _ Hn E)|].
Qed.

Section BigIntDefault.
Context `{Host}.

(** X11. With a BigInt as default, inferred or declared [bigint], and
    [process.env[key]] undefined, the call returns the default: the
    decimal text that [toString] writes is read back by [BigInt] as the
    same integer. *)
Theorem bigint_default_round_trip (env : gmap string string) (key : string)
    (z : Z) (ot : option string) :
  ot = None \/ ot = Some "bigint" ->
  env_get env key = Unset ->
  Environment.getOrDefault env key (VBigInt z) ot = Ok (VBigInt z)
  /\ (arg ← toString_call (VBigInt z); BigInt_of arg) = Ok (VBigInt z).
Proof.
  intros Hot Hraw.
  assert (B : (arg ← toString_call (VBigInt z); BigInt_of arg)
              = Ok (VBigInt z)).
  { simpl. unfold BigInt_of, BigInt. simpl.
    now rewrite StringToBigInt_toString. }
  split; [|exact B].
  unfold Environment.getOrDefault. rewrite Hraw.
  destruct Hot as [-> | ->]; exact B.
Qed.

End BigIntDefault.

(** * Runs on the executable host *)

Import RefHost.

(** ** The calls of the test-suite *)

Example run_string :
  Environment.getOrDefault ∅ "FOO_BAR" (VStr "default") None
  = Ok (VStr "default")
  /\ Environment.getOrDefault (foo_bar "test") "FOO_BAR" (VStr "default") None
     = Ok (VStr "test").
Proof. split; reflexivity. Qed.

Example run_boolean :
  Environment.getOrDefault (foo_bar "true") "FOO_BAR" (VBool false) None
  = Ok (VBool true)
  /\ Environment.getOrDefault (foo_bar "false") "FOO_BAR" (VBool false) None
     = Ok (VBool false)
  /\ Environment.getOrDefault ∅ "FOO_BAR" (VBool false) None
     = Ok (VBool false).
Proof. repeat split; reflexivity. Qed.

Example run_number :
  Environment.getOrDefault (foo_bar "1") "FOO_BAR" (lit "0") None
  = Ok (lit "1")
  /\ Environment.getOrDefault ∅ "FOO_BAR_BEZ" (lit "0") None = Ok (lit "0").
Proof. split; reflexivity. Qed.

Example run_sequence :
  Environment.getOrDefault (foo_bar "1,2,3") "FOO_BAR" (VArr []) None
  = Ok (VArr [VStr "1"; VStr "2"; VStr "3"])
  /\ Environment.getOrDefault ∅ "FOO_BAR_BEZ" (VArr [VStr "0"]) None
     = Ok (VArr [VStr "0"]).
Proof. split; reflexivity. Qed.

Example run_object :
  Environment.getOrDefault
    (foo_bar ("{" +:+ quote "foo" +:+ ":" +:+ quote "bar" +:+ "}"))
    "FOO_BAR" (VObj []) None
  = Ok (VObj [("foo", VStr "bar")])
  /\ Environment.getOrDefault ∅ "FOO_BAR_BEZ" (VObj [("foo", VStr "bar")]) None
     = Ok (VObj [("foo", VStr "bar")])
  /\ Environment.getOrDefault
       (foo_bar ("{" +:+ quote "foo" +:+ ":" +:+ quote "bar" +:+ "}"))
       "FOO_BAR" VUndefined (Some "object")
     = Ok (VObj [("foo", VStr "bar")]).
Proof. repeat split; reflexivity. Qed.

Example run_optional_type :
  Environment.getOrDefault (foo_bar "1") "FOO_BAR" (lit "0") (Some "number")
  = Ok (lit "1")
  /\ Environment.getOrDefault (foo_bar "1") "FOO_BAR" (VBigInt 0)
       (Some "bigint") = Ok (VBigInt 1)
  /\ Environment.getOrDefault ∅ "FOO_BAR" (VBigInt 1) (Some "bigint")
     = Ok (VBigInt 1)
  /\ Environment.getOrDefault (foo_bar "1,2,3") "FOO_BAR" (VArr [])
       (Some "array<bigint>") = Ok (VArr [VBigInt 1; VBigInt 2; VBigInt 3])
  /\ Environment.getOrDefault (foo_bar "1,2,3") "FOO_BAR" (VArr [])
       (Some "array<string>") = Ok (VArr [VStr "1"; VStr "2"; VStr "3"])
  /\ Environment.getOrDefault (foo_bar "true,false") "FOO_BAR" (VArr [])
       (Some "array<boolean>") = Ok (VArr [VBool true; VBool false])
  /\ Environment.getOrDefault (foo_bar "^foo$,^bar$") "FOO_BAR" (VArr [])
       (Some "array<regexp>")
     = Ok (VArr [VRegExp "^foo$" EmptyString; VRegExp "^bar$" EmptyString])
  /\ Environment.getOrDefault ∅ "FOO_BAR" (VRegExp "^foo$" EmptyString)
       (Some "regexp")
     = Ok (VRegExp "^foo$" EmptyString).
Proof. repeat split; reflexivity. Qed.

(** ** Keys that name a member of [Object.prototype] *)

Example run_inherited_key :
  env_get ∅ "toString" = Inherited (native "toString")
  /\ env_get ∅ "__proto__" = Inherited MemberPrototype
  /\ env_get ∅ "FOO_BAR" = Unset
  /\ env_get {[ "toString" := "x" ]} "toString" = Raw "x"
  /\ Environment.getOrDefault ∅ "hasOwnProperty" (VArr [lit "1"]) None
     = Raise TypeError
  /\ Environment.getOrDefault ∅ "toString" (VStr "default") None
     = Ok (VFun "function toString() { [native code] }"
             (fun _ => Ok (VStr "[object Null]")))
  /\ Environment.getOrDefault ∅ "valueOf" (lit "5") None = Ok (VNum NaN_)
  /\ Environment.getOrDefault ∅ "__proto__" (VStr "default") None
     = Ok VProto.
Proof. repeat split; reflexivity. Qed.

(** A default object with a [toString] of its own, and one without
    prototype, under a declared [number]. *)
Example run_default_toString :
  Environment.getOrDefault ∅ "FOO_BAR"
    (VObj [("toString", VFun "() => '7'" (fun _ => Ok (VStr "7")))])
    (Some "number") = Ok (lit "7")
  /\ Environment.getOrDefault ∅ "FOO_BAR"
       (VObj [("toString", VFun "() => { throw new RangeError() }"
                             (fun _ => Raise RangeError))])
       (Some "number") = Raise RangeError
  /\ Environment.getOrDefault ∅ "FOO_BAR" (VBare []) (Some "number")
     = Raise TypeError
  /\ Environment.getOrDefault (foo_bar "3") "FOO_BAR" (VBare [])
       (Some "number") = Ok (lit "3")
  /\ Environment.getOrDefault ∅ "FOO_BAR" (lit "12") (Some "bigint")
     = Ok (VBigInt 12).
Proof. repeat split; reflexivity. Qed.

(** ** The claims, on concrete calls *)

(** The test of the suite: [FOO_BAR] is ["1"] in the environment and is
    overridden by the number 2. *)
Lemma resolve_override_verbatim_witness :
  let two := lit "2" in
  let zero := lit "0" in
  let store : gmap string JSVal := {[ "FOO_BAR" := two ]} in
  store !! "FOO_BAR" = Some two
  /\ OverrideStore.resolve store (foo_bar "1") "FOO_BAR" zero None = Ok two.
Proof.
  intros two zero store.
  split; [reflexivity|].
  apply (resolve_override_verbatim store (foo_bar "1") (foo_bar "1")
           "FOO_BAR" two zero zero None None).
  reflexivity.
Defined.

(** The call of the test-suite, [getOrDefault('FOO_BAR', null)] with the
    variable unset; the earlier revision returns [null] there, and throws
    when the variable holds a text that is no JSON. *)
Lemma getOrDefault_null_unset :
  Environment.getOrDefault ∅ "FOO_BAR" VNull None = Raise TypeError
  /\ Rev1.getOrDefault ∅ "FOO_BAR" VNull None = Ok VNull
  /\ Rev1.getOrDefault (foo_bar "test") "FOO_BAR" VNull None
     = Raise SyntaxError.
Proof. repeat split; reflexivity. Qed.



Lemma array_shape_elementwise_witness :
  let env := foo_bar "1,2,3" in
  In "number" Environment.element_types
  /\ env !! "FOO_BAR" = Some "1,2,3"
  /\ length (Str.split "," "1,2,3") = 3
  /\ Environment.getOrDefault env "FOO_BAR" (VArr []) (Some "array<number>")
     = Ok (VArr [lit "1"; lit "2"; lit "3"]).
Proof.
  intros env.
  assert (Hin : In "number" Environment.element_types)
    by (simpl; auto).
  assert (Hraw : env !! "FOO_BAR" = Some "1,2,3") by reflexivity.
  destruct (array_shape_elementwise env "FOO_BAR" (VArr []) "number" "1,2,3"
              Hin Hraw) as (Hlen & Hres & _).
  split; [exact Hin|]. split; [exact Hraw|]. split; [exact Hlen|].
  exact (eq_trans Hres eq_refl).
Defined.

(** The variable [toString] is not set, and the default sequence is not
    returned. *)
Lemma array_inherited_key_throws_witness :
  (∅ : gmap string string) !! "toString" = None
  /\ env_inherited "toString" = Some (native "toString")
  /\ Environment.getOrDefault ∅ "toString" (VArr []) (Some "array<string>")
     = Raise TypeError
  /\ Environment.getOrDefault ∅ "toString" (VArr []) None = Raise TypeError.
Proof.
  assert (Hraw : (∅ : gmap string string) !! "toString" = None)
    by reflexivity.
  assert (Hm : env_inherited "toString" = Some (native "toString"))
    by reflexivity.
  destruct (array_inherited_key_throws ∅ "toString" (VArr [])
              (native "toString") Hraw Hm) as (Hdecl & _ & Hseq).
  split; [exact Hraw|]. split; [exact Hm|]. split.
  - apply (Hdecl "string"). simpl; auto 10.
  - apply (Hseq []). reflexivity.
Defined.

(** The same calls on a key that names no member return the default. *)
Example run_array_unset :
  let d := VArr [lit "3"; lit "2"; lit "1"] in
  env_get ∅ "FOO_BAR" = Unset
  /\ Environment.getOrDefault ∅ "FOO_BAR" d (Some "array<number>") = Ok d
  /\ Environment.getOrDefault ∅ "FOO_BAR" d None = Ok d.
Proof.
  intros d.
  assert (Hu : env_get ∅ "FOO_BAR" = Unset) by reflexivity.
  destruct (array_unset_returns_default ∅ "FOO_BAR" d Hu)
    as (Hdecl & _ & Hseq).
  split; [reflexivity|]. split.
  - apply (Hdecl "number"). simpl; auto.
  - apply (Hseq [lit "3"; lit "2"; lit "1"]). reflexivity.
Qed.

(** The variable [constructor] is not set, and the call returns the
    built-in function instead of the result of the default. *)
Lemma callback_inherited_key_skips_default_witness :
  let callback := VFun "() => '0'" (fun _ => Ok (VStr "0")) in
  (∅ : gmap string string) !! "constructor" = None
  /\ env_inherited "constructor" = Some (native "constructor")
  /\ Environment.getOrDefault ∅ "constructor" callback None
     = Ok (VFun "function constructor() { [native code] }"
             (fun _ => Ok (VObj []))).
Proof.
  intros callback.
  assert (Hraw : (∅ : gmap string string) !! "constructor" = None)
    by reflexivity.
  assert (Hm : env_inherited "constructor" = Some (native "constructor"))
    by reflexivity.
  destruct (callback_inherited_key_skips_default ∅ "constructor" "() => '0'"
              (fun _ => Ok (VStr "0")) (native "constructor") Hraw Hm)
    as (A & _).
  split; [exact Hraw|]. split; [exact Hm|]. exact A.
Defined.

Example run_callback :
  let callback := VFun "() => '0'" (fun _ => Ok (VStr "0")) in
  Environment.getOrDefault (foo_bar "x") "FOO_BAR" callback None
  = Ok (VStr "x")
  /\ Environment.getOrDefault (foo_bar EmptyString) "FOO_BAR" callback None
     = Ok (VStr "0")
  /\ Environment.getOrDefault ∅ "FOO_BAR" callback None = Ok (VStr "0").
Proof.
  intros callback.
  assert (Hne : "x" <> EmptyString) by discriminate.
  destruct (callback_default ∅ "FOO_BAR" "() => '0'"
              (fun _ => Ok (VStr "0")) "x" Hne) as (Hset & Hempty & Hunset).
  assert (Hn : env_inherited "FOO_BAR" = None) by reflexivity.
  split; [exact Hset|]. split; [exact Hempty|].
  exact (Hunset Hn).
Qed.

Lemma pattern_flags_from_default_witness :
  ((None : option string) = None \/ (None : option string) = Some "regexp")
  /\ Environment.getOrDefault (foo_bar "^foo$") "FOO_BAR"
       (VRegExp "^foo$" "i") None
     = Ok (VRegExp "^foo$" "i").
Proof.
  assert (Hot : (None : option string) = None
                \/ (None : option string) = Some "regexp") by (left; reflexivity).
  split; [exact Hot|].
  destruct (pattern_flags_from_default (foo_bar "^foo$") "FOO_BAR" "^foo$" "i"
              None Hot) as (A & _).
  exact A.
Defined.

Lemma number_empty_raw_is_NaN_witness :
  let env := foo_bar EmptyString in
  Environment.resolveType (lit "5") None = Some "number"
  /\ Environment.shapeOf "number" (lit "5") = Environment.Number
  /\ env !! "FOO_BAR" = Some EmptyString
  /\ Environment.getOrDefault env "FOO_BAR" (lit "5") None = Ok (VNum NaN_)
  /\ Environment.getOrDefault (delete "FOO_BAR" env) "FOO_BAR" (lit "5") None
     = Ok (lit "5").
Proof.
  intros env.
  split; [reflexivity|]. split; [reflexivity|]. split; [reflexivity|].
  destruct (number_empty_raw_is_NaN env "FOO_BAR" (lit "5") None "number"
              eq_refl eq_refl eq_refl) as (A & B & _).
  assert (Hn : env_inherited "FOO_BAR" = None) by reflexivity.
  split; [exact A|]. exact (eq_trans (B Hn) eq_refl).
Defined.

(** ** The docker probes, on concrete processes *)

Example run_isDocker_cgroup :
  Docker.isDocker [] container
  = (true, Docker.set_isDocker [] true
             (Docker.probe (Docker.ReadFileSync "/proc/self/cgroup")
                (Docker.probe (Docker.ExistsSync "/.dockerenv") container))).
Proof. reflexivity. Qed.

Example run_isDocker_not_linux :
  Docker.isDocker [] windows = (false, windows)
  /\ Docker.hasDockerEnv windows = (false, windows)
  /\ Docker.hasDockerCGroup windows = (false, windows).
Proof. repeat split; reflexivity. Qed.

(** The container is detected once; the cgroup file then disappears and
    the next call on the same class still answers [true], without
    looking. *)
Example run_isDocker_memo :
  let w1 := (Docker.isDocker [] container).2 in
  let w := Docker.set_fs (fun _ => false) (fun _ => None) w1 in
  Docker.isDocker [] w = (true, w).
Proof.
  intros w1 w.
  apply (isDocker_memo_stable [] container w1 w true); [reflexivity|].
  apply rtc_once, Docker.step_fs.
Qed.

(** The container is detected by a call on a class that extends
    [Environment]; the cgroup file then disappears, and a call on
    [Environment] itself looks again and answers [false]. *)
Lemma isDocker_subclass_recomputes_witness :
  let w1 := (Docker.isDocker ["MyEnvironment"] container).2 in
  let w2 := Docker.set_fs (fun _ => false) (fun _ => None) w1 in
  String.eqb (Docker.platform container) "linux" = true
  /\ Docker.get_isDocker (Docker._isDocker container) ["MyEnvironment"] = None
  /\ (Docker.isDocker ["MyEnvironment"] container).1 = true
  /\ (Docker.isDocker [] w2).1 = false
  /\ Docker.probes (Docker.isDocker [] w2).2
     = [Docker.ExistsSync "/.dockerenv";
        Docker.ReadFileSync "/proc/self/cgroup";
        Docker.ExistsSync "/.dockerenv";
        Docker.ReadFileSync "/proc/self/cgroup"]
  /\ (Docker.isDocker ["MyEnvironment"] (Docker.isDocker [] w2).2).1 = true.
Proof.
  intros w1 w2.
  destruct (isDocker_subclass_recomputes container "MyEnvironment" []
              (fun _ => false) (fun _ => None) eq_refl eq_refl)
    as (_ & _ & A & P).
  split; [reflexivity|]. split; [reflexivity|]. split; [reflexivity|].
  split; [exact A|]. split; [exact P | reflexivity].
Defined.

(** ** Further properties, on concrete calls *)

Lemma not_linux_never_probes_witness :
  let w' := Docker.set_fs (fun _ => true) (fun _ => Some "docker")
              (Docker.isDocker ["MyEnvironment"] windows).2 in
  String.eqb (Docker.platform windows) "linux" = false
  /\ rtc Docker.step windows w'
  /\ Docker.probes w' = []
  /\ Docker.isDocker [] w' = (false, w').
Proof.
  intros w'.
  assert (L : String.eqb (Docker.platform windows) "linux" = false)
    by reflexivity.
  assert (R : rtc Docker.step windows w').
  { eapply rtc_l; [apply (Docker.step_isDocker ["MyEnvironment"])|].
    apply rtc_once. apply Docker.step_fs. }
  destruct (not_linux_never_probes windows w' L R) as (P & _ & D & _).
  split; [exact L|]. split; [exact R|]. split; [exact P | exact (D [])].
Defined.

Lemma isDocker_first_call_witness :
  String.eqb (Docker.platform container) "linux" = true
  /\ Docker.get_isDocker (Docker._isDocker container) [] = None
  /\ (Docker.isDocker [] container).1 = true
  /\ Docker.probes (Docker.isDocker [] container).2
     = [Docker.ExistsSync "/.dockerenv";
        Docker.ReadFileSync "/proc/self/cgroup"].
Proof.
  destruct (isDocker_first_call [] container eq_refl eq_refl)
    as (A & _ & _ & P & _).
  split; [reflexivity|]. split; [reflexivity|]. split; [exact A | exact P].
Defined.

Lemma probes_two_paths_only_witness :
  rtc Docker.step container (Docker.isDocker [] container).2
  /\ exists l,
       Docker.probes (Docker.isDocker [] container).2
       = (Docker.probes container ++ l)%list
       /\ Forall (fun p => p = Docker.ExistsSync "/.dockerenv"
                           \/ p = Docker.ReadFileSync "/proc/self/cgroup") l.
Proof.
  assert (R : rtc Docker.step container (Docker.isDocker [] container).2)
    by (apply rtc_once; apply Docker.step_isDocker).
  split; [exact R|].
  exact (probes_two_paths_only container (Docker.isDocker [] container).2 R).
Defined.

Lemma string_default_passthrough_witness :
  ((None : option string) = None \/ (None : option string) = Some "string")
  /\ "test" <> EmptyString
  /\ Environment.getOrDefault (foo_bar "test") "FOO_BAR" (VStr "default") None
     = Ok (VStr "test")
  /\ Environment.getOrDefault (foo_bar EmptyString) "FOO_BAR" (VStr "default")
       None = Ok (VStr "default")
  /\ Environment.getOrDefault ∅ "FOO_BAR" (VStr "default") None
     = Ok (VStr "default").
Proof.
  assert (Hot : (None : option string) = None
                \/ (None : option string) = Some "string") by (left; reflexivity).
  assert (Hne : "test" <> EmptyString) by discriminate.
  destruct (string_default_passthrough ∅ "FOO_BAR" "default" "test" None
              Hot Hne) as (A & B & C & _).
  split; [exact Hot|]. split; [exact Hne|]. split; [exact A|].
  assert (Hn : env_inherited "FOO_BAR" = None) by reflexivity.
  split; [exact B | exact (C Hn)].
Defined.

Lemma sequence_default_split_witness :
  foo_bar "a,,b" !! "FOO_BAR" = Some "a,,b"
  /\ Environment.getOrDefault (foo_bar "a,,b") "FOO_BAR" (VArr []) None
     = Ok (VArr [VStr "a"; VStr EmptyString; VStr "b"])
  /\ Str.join "," (Str.split "," "a,,b") = "a,,b".
Proof.
  destruct (sequence_default_split (foo_bar "a,,b") "FOO_BAR" [] VUndefined
              "a,,b" eq_refl) as (A & _ & J & _).
  split; [reflexivity|]. split; [exact A | exact J].
Defined.

Lemma array_other_element_witness :
  Str.count ">" "string" = 0
  /\ ~ In "string" ["boolean"; "number"; "bigint"; "object"; "regexp"]
  /\ foo_bar "1,2" !! "FOO_BAR" = Some "1,2"
  /\ Environment.getOrDefault (foo_bar "1,2") "FOO_BAR" (VArr [])
       (Some "array<string>") = Ok (VArr [VStr "1"; VStr "2"]).
Proof.
  assert (Hn : ~ In "string" ["boolean"; "number"; "bigint"; "object"; "regexp"]).
  { simpl. intros [E|[E|[E|[E|[E|[]]]]]]; discriminate E. }
  destruct (array_other_element (foo_bar "1,2") "FOO_BAR" (VArr []) "string"
              "1,2" eq_refl Hn eq_refl) as (_ & A).
  split; [reflexivity|]. split; [exact Hn|]. split; [reflexivity | exact A].
Defined.

Lemma raw_takes_priority_witness :
  foo_bar "7" !! "FOO_BAR" = Some "7"
  /\ Environment.getOrDefault (foo_bar "7") "FOO_BAR" (VStr "x") (Some "number")
     = Ok (lit "7")
  /\ Environment.getOrDefault (foo_bar "7") "FOO_BAR" (VStr "x") (Some "bigint")
     = Ok (VBigInt 7).
Proof.
  destruct (raw_takes_priority (foo_bar "7") "FOO_BAR" (VStr "x") VNull "7"
              eq_refl) as (A & B & _).
  split; [reflexivity|]. split; [exact A | exact B].
Defined.

Lemma bigint_default_round_trip_witness :
  ((None : option string) = None \/ (None : option string) = Some "bigint")
  /\ env_get ∅ "FOO_BAR" = Unset
  /\ Environment.getOrDefault ∅ "FOO_BAR" (VBigInt (-12345)) None
     = Ok (VBigInt (-12345)).
Proof.
  assert (Hot : (None : option string) = None
                \/ (None : option string) = Some "bigint") by (left; reflexivity).
  assert (Hraw : env_get ∅ "FOO_BAR" = Unset) by reflexivity.
  destruct (bigint_default_round_trip ∅ "FOO_BAR" (-12345) None Hot Hraw)
    as (A & _).
  split; [exact Hot|]. split; [reflexivity | exact A].
Defined.

Lemma Rev1_optional_type_unread_witness :
  nullish (lit "0") = false
  /\ Rev1.getOrDefault (foo_bar "1") "FOO_BAR" (lit "0") (Some "bigint")
     = Rev1.getOrDefault (foo_bar "1") "FOO_BAR" (lit "0") None.
Proof.
  split; [reflexivity|].
  exact (Rev1_optional_type_unread (foo_bar "1") "FOO_BAR" (lit "0")
           (Some "bigint") eq_refl).
Defined.

Lemma revisions_agree_on_primitives_witness :
  In (typeOf (VBool false))
    ["boolean"; "number"; "bigint"; "string"; "function"]
  /\ Rev1.getOrDefault (foo_bar "true") "FOO_BAR" (VBool false) None
     = Environment.getOrDefault (foo_bar "true") "FOO_BAR" (VBool false) None.
Proof.
  assert (Hin : In (typeOf (VBool false))
                  ["boolean"; "number"; "bigint"; "string"; "function"])
    by (left; reflexivity).
  split; [exact Hin|].
  exact (revisions_agree_on_primitives (foo_bar "true") "FOO_BAR"
           (VBool false) Hin).
Defined.

Lemma object_shape_sources_witness :
  isArray (VBigInt 1) = false
  /\ isRegExp (VBigInt 1) = false
  /\ Environment.getOrDefault (foo_bar "[]") "FOO_BAR" (VBigInt 1)
       (Some "object") = Ok (VArr [])
  /\ env_get ∅ "FOO_BAR" = Unset
  /\ Environment.getOrDefault ∅ "FOO_BAR" (VBigInt 1) (Some "object")
     = Raise TypeError.
Proof.
  destruct (object_shape_sources (foo_bar "[]") "FOO_BAR" (VBigInt 1)
              eq_refl eq_refl) as (A & _).
  destruct (object_shape_sources ∅ "FOO_BAR" (VBigInt 1) eq_refl eq_refl)
    as (_ & B).
  assert (Hu : env_get ∅ "FOO_BAR" = Unset) by reflexivity.
  destruct (B Hu) as (B1 & _).
  split; [reflexivity|]. split; [reflexivity|]. split.
  - exact (A "[]" eq_refl).
  - split; [reflexivity|]. exact (B1 TypeError eq_refl).
Defined.

Lemma declared_without_default_throws_witness :
  env_get ∅ "FOO_BAR" = Unset
  /\ Environment.getOrDefault ∅ "FOO_BAR" VNull (Some "regexp")
     = Raise TypeError
  /\ Environment.getOrDefault ∅ "FOO_BAR" VNull (Some "bigint")
     = Raise TypeError.
Proof.
  assert (Hu : env_get ∅ "FOO_BAR" = Unset) by reflexivity.
  destruct (declared_without_default_throws ∅ "FOO_BAR") as (_ & A & B).
  destruct (B Hu) as (_ & C).
  split; [exact Hu|]. split; [exact A | exact C].
Defined.

Lemma declared_shape_skips_callback_witness :
  let callback := VFun "() => 1" (fun _ => Ok (lit "1")) in
  foo_bar "7" !! "FOO_BAR" = Some "7"
  /\ Environment.getOrDefault (foo_bar "7") "FOO_BAR" callback (Some "number")
     = Ok (lit "7")
  /\ Environment.getOrDefault ∅ "FOO_BAR" callback (Some "number")
     = Ok (VNum NaN_)
  /\ Environment.getOrDefault ∅ "FOO_BAR" callback (Some "string")
     = Ok callback.
Proof.
  intros callback.
  destruct (declared_shape_skips_callback (foo_bar "7") "FOO_BAR" "() => 1"
              (fun _ => Ok (lit "1"))) as (A & _ & _ & T).
  destruct (declared_shape_skips_callback ∅ "FOO_BAR" "() => 1"
              (fun _ => Ok (lit "1"))) as (B & _ & C & _).
  assert (Hraw : foo_bar "7" !! "FOO_BAR" = Some "7") by reflexivity.
  destruct (T "7" Hraw) as (_ & _ & _).
  split; [exact Hraw|]. split; [exact A|]. split; [exact B | exact C].
Defined.

Lemma Rev1_object_class_defaults_witness :
  env_get ∅ "FOO_BAR" = Unset
  /\ Rev1.getOrDefault ∅ "FOO_BAR" (VRegExp "^foo$" "i") None
     = Raise SyntaxError
  /\ Rev1.getOrDefault (foo_bar "1,2,3") "FOO_BAR" (VArr []) None
     = Raise SyntaxError
  /\ Rev1.getOrDefault (foo_bar "[1]") "FOO_BAR" (VArr []) None
     = Ok (VArr [lit "1"]).
Proof.
  assert (Hu : env_get ∅ "FOO_BAR" = Unset) by reflexivity.
  destruct (Rev1_object_class_defaults ∅ "FOO_BAR" None [] "^foo$" "i" [])
    as ((_ & A & _) & _ & U).
  destruct (U Hu) as (U1 & _).
  destruct (Rev1_object_class_defaults (foo_bar "1,2,3") "FOO_BAR" None []
              "^foo$" "i" []) as ((B & _) & _).
  destruct (Rev1_object_class_defaults (foo_bar "[1]") "FOO_BAR" None []
              "^foo$" "i" []) as ((C & _) & _).
  split; [exact Hu|]. split; [|split].
  - exact (eq_trans A (eq_trans U1 eq_refl)).
  - exact (eq_trans B eq_refl).
  - exact (eq_trans C eq_refl).
Defined.

Lemma Rev1_undefined_untyped_witness :
  foo_bar "x" !! "FOO_BAR" = Some "x"
  /\ "x" <> EmptyString
  /\ exists v, Rev1.getOrDefault (foo_bar "x") "FOO_BAR" VUndefined None = Ok v
               /\ v = VStr "x".
Proof.
  assert (Hraw : foo_bar "x" !! "FOO_BAR" = Some "x") by reflexivity.
  assert (Hne : "x" <> EmptyString) by discriminate.
  destruct (Rev1_undefined_untyped (foo_bar "x") "FOO_BAR")
    as (v & E & _ & _ & S & _).
  split; [exact Hraw|]. split; [exact Hne|].
  exists v. split; [exact E | exact (S "x" Hraw Hne)].
Defined.
